(** * InsightPDF: the Streamlit script [Implementing_Router_Query.py]

    The script is integration glue: every run of it writes the uploaded
    PDF to a temporary file, obtains a router query engine from the cached
    routine [load_and_process_data], optionally forwards the user's
    question to it, renders the answer and unlinks the temporary file.

    The embedding follows the script statement by statement.  Python
    objects built by the script are records of their constructor
    arguments; the state the script touches (file system, the
    [st.cache_resource] store, the [Settings] singleton) is threaded
    explicitly together with a log of the calls made; a Python exception
    is the [Raise] outcome of a computation.  What the imported packages
    compute (parsed documents, nodes, the selector's choice, an engine's
    answer, whether a call raises) is left to a record of oracles,
    [Library], which may depend on the whole state and history. *)

From Stdlib Require Import ZArith.
From stdpp Require Import base option list gmap strings.

Open Scope string_scope.

(** ** Values *)

Definition bytes := list Byte.byte.

Inductive Exn :=
| FileNotFoundError (path : string)
| IndexError
| LibraryError (msg : string).

Inductive result (A : Type) :=
| Ok (a : A)
| Raise (e : Exn).
Arguments Ok {A} a.
Arguments Raise {A} e.

(** Opaque data of llama_index. *)
Record Document := { doc_text : string }.
Record Node := { node_text : string }.
Record Response := { response_text : string }.

(** [str(response)] *)
Definition str (r : Response) : string := response_text r.

(** [SentenceSplitter(chunk_size=...)] *)
Record SentenceSplitter := { chunk_size : Z }.

(** [OpenAI(model=..., api_key=...)] and
    [OpenAIEmbedding(model=..., api_key=...)] *)
Record OpenAI := { llm_model : string; llm_api_key : option string }.
Record OpenAIEmbedding := { emb_model : string; emb_api_key : option string }.

(** The two attributes of the [Settings] singleton the script assigns. *)
Record SettingsT := {
  llm : option OpenAI;
  embedding : option OpenAIEmbedding
}.

(** [SummaryIndex(nodes=...)] and [VectorStoreIndex(nodes=...)] *)
Inductive Index :=
| SummaryIndex (nodes : list Node)
| VectorStoreIndex (nodes : list Node).

(** [index.as_query_engine] with its keyword arguments: a keyword left
    out is [None]. *)
Record QueryEngine := {
  qe_index : Index;
  response_mode : option string;
  use_async : option bool
}.

(** [ToolMetadata(description=..., name=...)]; [name] is an optional
    keyword of the constructor. *)
Record ToolMetadata := {
  description : string;
  name : option string
}.

(** [QueryEngineTool(query_engine=..., metadata=...)] *)
Record QueryEngineTool := {
  query_engine : QueryEngine;
  metadata : ToolMetadata
}.

(** [LLMSingleSelector.from_defaults()] is the only selector the script
    builds. *)
Inductive Selector := LLMSingleSelector_from_defaults.

(** [RouterQueryEngine(selector=..., query_engine_tools=..., verbose=...)] *)
Record RouterQueryEngine := {
  selector : Selector;
  query_engine_tools : list QueryEngineTool;
  verbose : bool
}.

(** The object [st.file_uploader] returns when a file was chosen. *)
Record UploadedFile := { upload_name : string; getvalue : bytes }.

(** What the environment and the user supply to one run of the script. *)
Record Inputs := {
  OPENAI_API_KEY : option string;        (* os.getenv('OPENAI_API_KEY') *)
  uploaded_file : option UploadedFile;   (* value of st.file_uploader *)
  typed_query : option string;           (* text typed into st.text_input *)
  button_clicked : bool                  (* value of st.button *)
}.

(** ** Calls into the imported packages and the log of a run *)

Inductive Call :=
| SimpleDirectoryReader_load_data (input_files : list string)
| get_nodes_from_documents (splitter : SentenceSplitter) (documents : list Document)
| SummaryIndex_init (nodes : list Node)
| VectorStoreIndex_init (nodes : list Node)
| as_query_engine (qe : QueryEngine)
| LLMSingleSelector_select (s : Selector) (choices : list ToolMetadata) (query : string)
| QueryEngine_query (qe : QueryEngine) (query : string).

Inductive Event :=
| st_markdown (body : string) (unsafe_allow_html : bool)
| st_file_uploader (label type : string)
| st_text_input (label value : string)
| st_button (label : string)
| st_spinner_enter (text : string)
| st_spinner_exit
| st_write (text : string)
| st_info (text : string)
| st_sidebar_title (text : string)
| st_sidebar_info (text : string)
| tempfile_open (path : string)
| tempfile_write (path : string) (data : bytes)
| tempfile_close (path : string)
| os_unlink (path : string)
| Settings_llm_set (v : OpenAI)
| Settings_embedding_set (v : OpenAIEmbedding)
| called (c : Call)
| raised (e : Exn).

(** ** State *)

Record World := {
  fs : gmap string bytes;                   (* files on disk *)
  cache : gmap string RouterQueryEngine;    (* store of st.cache_resource *)
  settings : SettingsT;                     (* llama_index Settings *)
  trace : list Event                        (* calls made so far, oldest first *)
}.

Definition initial : World :=
  {| fs := ∅; cache := ∅;
     settings := {| llm := None; embedding := None |};
     trace := [] |}.

Definition set_fs (f : gmap string bytes → gmap string bytes) (w : World) : World :=
  {| fs := f (fs w); cache := cache w; settings := settings w; trace := trace w |}.

Definition set_cache
    (f : gmap string RouterQueryEngine → gmap string RouterQueryEngine)
    (w : World) : World :=
  {| fs := fs w; cache := f (cache w); settings := settings w; trace := trace w |}.

Definition set_settings (f : SettingsT → SettingsT) (w : World) : World :=
  {| fs := fs w; cache := cache w; settings := f (settings w); trace := trace w |}.

Definition log (ev : Event) (w : World) : World :=
  {| fs := fs w; cache := cache w; settings := settings w;
     trace := trace w ++ [ev] |}.

(** ** The oracles

    Everything the imported packages and the operating system decide.
    Each oracle sees the state in which it is called, so its answers may
    change from call to call. *)
Record Library := {
  (* the path tempfile picks for a new file, without the suffix *)
  mkstemp_stem : World → string;
  lib_load_data : World → list string → result (list Document);
  lib_get_nodes : World → SentenceSplitter → list Document → result (list Node);
  (* a constructor or builder whose result is modelled as a record may
     still raise *)
  lib_raises : World → Call → option Exn;
  lib_select : World → Selector → list ToolMetadata → string → result nat;
  lib_query : World → QueryEngine → string → result Response
}.

(** ** Computations: state, log and exceptions *)

Definition M (A : Type) : Type := World → result A * World.

Definition ret {A} (a : A) : M A := fun w => (Ok a, w).

Definition bind {A B} (m : M A) (k : A → M B) : M B :=
  fun w =>
    match m w with
    | (Ok a, w') => k a w'
    | (Raise e, w') => (Raise e, w')
    end.

Declare Scope prog_scope.
Delimit Scope prog_scope with prog.
Notation "x <- m ;; k" := (bind m (fun x => k))
  (at level 100, m at next level, right associativity) : prog_scope.
Notation "m ;; k" := (bind m (fun _ => k))
  (at level 100, right associativity) : prog_scope.
Open Scope prog_scope.

Definition emit (ev : Event) : M unit := fun w => (Ok tt, log ev w).

Definition modify (f : World → World) : M unit := fun w => (Ok tt, f w).

(** An exception leaves the callee: it is logged where it is raised. *)
Definition raise {A} (e : Exn) : M A := fun w => (Raise e, log (raised e) w).

(** A call into a package: logged, then answered by the oracle. *)
Definition call {A} (c : Call) (oracle : World → result A) : M A :=
  fun w =>
    match oracle w with
    | Ok a => (Ok a, log (called c) w)
    | Raise e => raise e (log (called c) w)
    end.

(** A call whose result the model builds itself. *)
Definition construct (lib : Library) {A} (c : Call) (a : A) : M A :=
  call c (fun w => match lib_raises lib w c with
                   | Some e => Raise e
                   | None => Ok a
                   end).

(** [with cm: body] for a context manager that does not swallow
    exceptions: [exit] runs whether or not [body] raised, and the outcome
    of [body] is the outcome of the statement. *)
Definition with_ {A} (enter : M unit) (exit : World → World) (body : M A) : M A :=
  fun w =>
    match enter w with
    | (Ok _, w1) => let '(r, w2) := body w1 in (r, exit w2)
    | (Raise e, w1) => (Raise e, w1)
    end.

(** The events a computation adds to the log when started in [w]. *)
Definition events_of {A} (m : M A) (w : World) : list Event :=
  drop (length (trace w)) (trace (snd (m w))).

(** ** The operating system and Streamlit primitives the script uses *)

Definition nl : string := String (Ascii.ascii_of_nat 10) EmptyString.
Definition dq : string := String (Ascii.ascii_of_nat 34) EmptyString.

(** [with tempfile.NamedTemporaryFile(delete=..., suffix=...) as tmp_file]:
    a new, empty file is created under a name that ends in [suffix]; the
    body receives [tmp_file.name]; on leaving the block the file is closed
    and, only when [delete] is set, removed. *)
Definition NamedTemporaryFile (lib : Library) (delete_ : bool) (suffix : string)
    {A} (body : string → M A) : M A :=
  fun w =>
    let path := mkstemp_stem lib w ++ suffix in
    with_ (modify (set_fs (insert path []));; emit (tempfile_open path))
          (fun w' => log (tempfile_close path)
                       (if delete_ then set_fs (delete path) w' else w'))
          (body path) w.

(** [tmp_file.write(data)] appends to the file. *)
Definition tmp_file_write (path : string) (data : bytes) : M unit :=
  modify (set_fs (fun m => <[path := (default [] (m !! path) ++ data)%list]> m));;
  emit (tempfile_write path data).

(** [os.unlink(path)] removes the file and raises when there is none. *)
Definition unlink (path : string) : M unit :=
  fun w =>
    match fs w !! path with
    | Some _ => (Ok tt, log (os_unlink path) (set_fs (delete path) w))
    | None => raise (FileNotFoundError path) (log (os_unlink path) w)
    end.

(** [with st.spinner(text)] *)
Definition spinner {A} (text : string) (body : M A) : M A :=
  with_ (emit (st_spinner_enter text)) (log st_spinner_exit) body.

(** [st.text_input(label, value)] returns what the user typed, [value]
    when nothing was typed. *)
Definition text_input (inp : Inputs) (label value : string) : M string :=
  let v := default value (typed_query inp) in
  emit (st_text_input label value);; ret v.

(** [st.button(label)] *)
Definition button (inp : Inputs) (label : string) : M bool :=
  emit (st_button label);; ret (button_clicked inp).

(** [Settings.llm = v] and [Settings.embedding = v] *)
Definition Settings_set_llm (v : OpenAI) : M unit :=
  modify (set_settings (fun s => {| llm := Some v; embedding := embedding s |}));;
  emit (Settings_llm_set v).

Definition Settings_set_embedding (v : OpenAIEmbedding) : M unit :=
  modify (set_settings (fun s => {| llm := llm s; embedding := Some v |}));;
  emit (Settings_embedding_set v).

(** ** [load_and_process_data] *)

Definition summary_description : string :=
  "Useful for summarizing the uploaded PDF.".
Definition vector_description : string :=
  "Useful for finding similar sentences in the uploaded PDF.".

(** The tools and the router, as the routine assembles them from the
    nodes. *)
Definition summary_query_engine_of (nodes : list Node) : QueryEngine :=
  {| qe_index := SummaryIndex nodes;
     response_mode := Some "tree_summarize";
     use_async := Some true |}.

Definition vector_query_engine_of (nodes : list Node) : QueryEngine :=
  {| qe_index := VectorStoreIndex nodes;
     response_mode := None;
     use_async := None |}.

Definition summary_tool_of (nodes : list Node) : QueryEngineTool :=
  {| query_engine := summary_query_engine_of nodes;
     metadata := {| description := summary_description; name := None |} |}.

Definition vector_tool_of (nodes : list Node) : QueryEngineTool :=
  {| query_engine := vector_query_engine_of nodes;
     metadata := {| description := vector_description; name := None |} |}.

Definition router_of (nodes : list Node) : RouterQueryEngine :=
  {| selector := LLMSingleSelector_from_defaults;
     query_engine_tools := [summary_tool_of nodes; vector_tool_of nodes];
     verbose := true |}.

(** The body of the routine, lines 27 to 70.  [key] is the module-level
    [OPENAI_API_KEY] the body reads. *)
Definition load_and_process_data_body (lib : Library) (key : option string)
    (file_path : string) : M RouterQueryEngine :=
  (* Load documents *)
  documents <- call (SimpleDirectoryReader_load_data [file_path])
                    (fun w => lib_load_data lib w [file_path]);;
  (* Split documents into nodes *)
  let splitter := {| chunk_size := 1024 |} in
  nodes <- call (get_nodes_from_documents splitter documents)
                (fun w => lib_get_nodes lib w splitter documents);;
  (* Set up LLM and embedding models *)
  Settings_set_llm {| llm_model := "gpt-4o-mini"; llm_api_key := key |};;
  Settings_set_embedding
    {| emb_model := "text-embedding-ada-002"; emb_api_key := key |};;
  (* Create indices *)
  summary_index <- construct lib (SummaryIndex_init nodes) (SummaryIndex nodes);;
  vector_index <- construct lib (VectorStoreIndex_init nodes) (VectorStoreIndex nodes);;
  (* Set up query engines *)
  let sqe := {| qe_index := summary_index;
                response_mode := Some "tree_summarize";
                use_async := Some true |} in
  summary_query_engine <- construct lib (as_query_engine sqe) sqe;;
  let vqe := {| qe_index := vector_index;
                response_mode := None;
                use_async := None |} in
  vector_query_engine <- construct lib (as_query_engine vqe) vqe;;
  (* Create tools *)
  let summary_tool :=
    {| query_engine := summary_query_engine;
       metadata := {| description := summary_description; name := None |} |} in
  let vector_tool :=
    {| query_engine := vector_query_engine;
       metadata := {| description := vector_description; name := None |} |} in
  (* Set up router query engine *)
  let query_engine_ :=
    {| selector := LLMSingleSelector_from_defaults;
       query_engine_tools := [summary_tool; vector_tool];
       verbose := true |} in
  ret query_engine_.

(** Modelled from the spec: [st.cache_resource], the memoization
    decorator of Streamlit, whose code is not part of the repository.  The
    value a call returns is stored under the call's argument and handed
    out again for that argument without running the function; a call that
    raises stores nothing. *)
Definition st_cache_resource (f : string → M RouterQueryEngine)
    (arg : string) : M RouterQueryEngine :=
  fun w =>
    match cache w !! arg with
    | Some v => (Ok v, w)
    | None =>
        match f arg w with
        | (Ok v, w') => (Ok v, set_cache (insert arg v) w')
        | (Raise e, w') => (Raise e, w')
        end
    end.

(** The decorated routine, lines 25 and 26. *)
Definition load_and_process_data (lib : Library) (key : option string)
    : string → M RouterQueryEngine :=
  st_cache_resource (load_and_process_data_body lib key).

(** Modelled from the spec: [RouterQueryEngine.query] of llama_index,
    whose code is not part of the repository.  The router hands the
    descriptions of its tools and the question to its selector, once, and
    forwards the question to the query engine of the tool the selector
    chose. *)
Definition RouterQueryEngine_query (lib : Library) (eng : RouterQueryEngine)
    (q : string) : M Response :=
  let choices := metadata <$> query_engine_tools eng in
  i <- call (LLMSingleSelector_select (selector eng) choices q)
            (fun w => lib_select lib w (selector eng) choices q);;
  match query_engine_tools eng !! i with
  | Some tool =>
      call (QueryEngine_query (query_engine tool) q)
           (fun w => lib_query lib w (query_engine tool) q)
  | None => raise IndexError
  end.

(** ** The script, lines 23 and 72 to 116

    Lines 15 to 20 prepare the process: [load_dotenv()] and [os.getenv]
    produce the [OPENAI_API_KEY] of the inputs, and [nest_asyncio.apply()]
    patches the event loop, which has no counterpart here. *)

Definition title_html : string :=
  "<h1 style='text-align: center; color: Black;'>InsightPDF</h1>".

Definition answer_html (response : Response) : string :=
  nl ++ "            <div style=" ++ dq
     ++ "background-color: #f0f2f6; border-radius: 10px; padding: 20px; margin: 10px 0;"
     ++ dq ++ ">" ++ nl
     ++ "                " ++ str response ++ nl
     ++ "            </div>" ++ nl
     ++ "            ".

Definition about_text : string :=
  "This application allows you to query information from any uploaded PDF document. "
  ++ "You can ask questions about its content, and the AI will analyze the document to provide answers.".

Definition howto_text : string :=
  "1. Upload a PDF file using the file uploader." ++ nl
  ++ "2. Enter your question in the text box." ++ nl
  ++ "3. Click 'Submit Query' to get a response." ++ nl
  ++ "4. The app will use AI to analyze the PDF and provide an answer.".

Definition sidebar : M unit :=
  emit (st_sidebar_title "About PDF Query App");;
  emit (st_sidebar_info about_text);;
  emit (st_sidebar_title "How to Use");;
  emit (st_sidebar_info howto_text).

(** Lines 76 to 78: the upload is copied into a new temporary file whose
    name is kept. *)
Definition write_upload (lib : Library) (f : UploadedFile) : M string :=
  NamedTemporaryFile lib false ".pdf" (fun tmp_file_name =>
    tmp_file_write tmp_file_name (getvalue f);;
    ret tmp_file_name).

(** Lines 84 to 97: the question, the answer when the button was
    clicked, and the removal of the temporary file. *)
Definition answer_and_cleanup (lib : Library) (inp : Inputs)
    (tmp_file_path : string) (query_engine_ : RouterQueryEngine) : M unit :=
  (* User input *)
  user_query <- text_input inp "Enter your question about the uploaded PDF:"
                               "What is this document about?";;
  clicked <- button inp "Submit Query";;
  (if clicked : bool then
     spinner "Processing your query..." (
       response <- RouterQueryEngine_query lib query_engine_ user_query;;
       emit (st_write "Response:");;
       emit (st_markdown (answer_html response) true))
   else ret tt);;
  (* Clean up the temporary file *)
  unlink tmp_file_path.

(** The block run when a file was uploaded, lines 76 to 97. *)
Definition handle_upload (lib : Library) (inp : Inputs) (f : UploadedFile) : M unit :=
  tmp_file_path <- write_upload lib f;;
  (* Load and process data *)
  query_engine_ <- load_and_process_data lib (OPENAI_API_KEY inp) tmp_file_path;;
  answer_and_cleanup lib inp tmp_file_path query_engine_.

Definition script (lib : Library) (inp : Inputs) : M unit :=
  emit (st_markdown title_html true);;
  emit (st_file_uploader "Choose a PDF file" "pdf");;
  match uploaded_file inp with
  | Some f => handle_upload lib inp f
  | None => emit (st_info "Please upload a PDF file to begin.")
  end;;
  sidebar.

(** Lines 89 to 94, the rendering of the answer: [st.write], then
    [st.markdown] of the f-string around [str(response)]. *)
Definition render_answer (response : Response) : M unit :=
  emit (st_write "Response:");;
  emit (st_markdown (answer_html response) true).

(** The script with lines 89 to 94 taken as a parameter [render], so
    that a run in which the rendering of the answer fails can be stated
    ([st.write], [str(response)] or [st.markdown] raising).  Everything
    else is as in [answer_and_cleanup], [handle_upload] and [script],
    which are the instances at [render_answer]. *)
Definition answer_and_cleanup_with (render : Response → M unit)
    (lib : Library) (inp : Inputs)
    (tmp_file_path : string) (query_engine_ : RouterQueryEngine) : M unit :=
  (* User input *)
  user_query <- text_input inp "Enter your question about the uploaded PDF:"
                               "What is this document about?";;
  clicked <- button inp "Submit Query";;
  (if clicked : bool then
     spinner "Processing your query..." (
       response <- RouterQueryEngine_query lib query_engine_ user_query;;
       render response)
   else ret tt);;
  (* Clean up the temporary file *)
  unlink tmp_file_path.

Definition handle_upload_with (render : Response → M unit)
    (lib : Library) (inp : Inputs) (f : UploadedFile) : M unit :=
  tmp_file_path <- write_upload lib f;;
  (* Load and process data *)
  query_engine_ <- load_and_process_data lib (OPENAI_API_KEY inp) tmp_file_path;;
  answer_and_cleanup_with render lib inp tmp_file_path query_engine_.

Definition script_with (render : Response → M unit)
    (lib : Library) (inp : Inputs) : M unit :=
  emit (st_markdown title_html true);;
  emit (st_file_uploader "Choose a PDF file" "pdf");;
  match uploaded_file inp with
  | Some f => handle_upload_with render lib inp f
  | None => emit (st_info "Please upload a PDF file to begin.")
  end;;
  sidebar.

(** Reruns of the script: Streamlit runs it again, in the same process,
    on every interaction; the cache, [Settings] and the disk are carried
    over, whatever the outcome of a run. *)
Definition reruns (lib : Library) (inps : list Inputs) (w : World) : World :=
  foldl (fun w inp => snd (script lib inp w)) w inps.

(** ** Vocabulary of the statements *)

Open Scope list_scope.

(** The events of a complete execution of the body on [file_path], for
    the documents and nodes the library produced. *)
Definition body_events (key : option string) (file_path : string)
    (documents : list Document) (nodes : list Node) : list Event :=
  [ called (SimpleDirectoryReader_load_data [file_path]);
    called (get_nodes_from_documents {| chunk_size := 1024 |} documents);
    Settings_llm_set {| llm_model := "gpt-4o-mini"; llm_api_key := key |};
    Settings_embedding_set
      {| emb_model := "text-embedding-ada-002"; emb_api_key := key |};
    called (SummaryIndex_init nodes);
    called (VectorStoreIndex_init nodes);
    called (as_query_engine (summary_query_engine_of nodes));
    called (as_query_engine (vector_query_engine_of nodes)) ].

Definition body_settings (key : option string) : SettingsT :=
  {| llm := Some {| llm_model := "gpt-4o-mini"; llm_api_key := key |};
     embedding :=
       Some {| emb_model := "text-embedding-ada-002"; emb_api_key := key |} |}.

(** What the body may log, whatever its outcome: the calls of the setup,
    the two assignments to [Settings], and the exception that ended it. *)
Definition setup_event (ev : Event) : Prop :=
  match ev with
  | called (SimpleDirectoryReader_load_data _) => True
  | called (get_nodes_from_documents sp _) => chunk_size sp = 1024%Z
  | called (SummaryIndex_init _) => True
  | called (VectorStoreIndex_init _) => True
  | called (as_query_engine _) => True
  | Settings_llm_set _ => True
  | Settings_embedding_set _ => True
  | raised _ => True
  | _ => False
  end.

(** The steps the specification lists for the routine, and no other:
    load, split, the two indices, their query engines. *)
Definition listed_steps (file_path : string) (documents : list Document)
    (nodes : list Node) : list Event :=
  [ called (SimpleDirectoryReader_load_data [file_path]);
    called (get_nodes_from_documents {| chunk_size := 1024 |} documents);
    called (SummaryIndex_init nodes);
    called (VectorStoreIndex_init nodes);
    called (as_query_engine (summary_query_engine_of nodes));
    called (as_query_engine (vector_query_engine_of nodes)) ].

(** The state in which the upload block starts: the title and the
    uploader widget have been rendered. *)
Definition after_header (w : World) : World :=
  log (st_file_uploader "Choose a PDF file" "pdf")
      (log (st_markdown title_html true) w).

(** The name of the temporary file of a run started in [w]. *)
Definition tmp_path (lib : Library) (w : World) : string :=
  (mkstemp_stem lib (after_header w) ++ ".pdf")%string.

(** The state in which the setup routine is called. *)
Definition after_write (lib : Library) (f : UploadedFile) (w : World) : World :=
  snd (write_upload lib f (after_header w)).

(** The question put to the router. *)
Definition user_query_of (inp : Inputs) : string :=
  default "What is this document about?"%string (typed_query inp).

Definition ui_events : list Event :=
  [ st_text_input "Enter your question about the uploaded PDF:"
                  "What is this document about?";
    st_button "Submit Query" ].

(** The state in which the router is queried, when the block after the
    setup starts in [w]. *)
Definition query_world (w : World) : World :=
  log (st_spinner_enter "Processing your query...")
    (log (st_button "Submit Query")
      (log (st_text_input "Enter your question about the uploaded PDF:"
                          "What is this document about?") w)).

Definition select_call (eng : RouterQueryEngine) (q : string) : Call :=
  LLMSingleSelector_select (selector eng) (metadata <$> query_engine_tools eng) q.

Definition sidebar_events : list Event :=
  [ st_sidebar_title "About PDF Query App";
    st_sidebar_info about_text;
    st_sidebar_title "How to Use";
    st_sidebar_info howto_text ].

(** Events that are calls into a selector, or into the query engine of a
    tool. *)
Definition is_select (ev : Event) : bool :=
  match ev with
  | called (LLMSingleSelector_select _ _ _) => true
  | _ => false
  end.

Definition is_engine_query (ev : Event) : bool :=
  match ev with
  | called (QueryEngine_query _ _) => true
  | _ => false
  end.

(** The calls into a selector, and the calls into the query engine of a
    tool, among the events of a run. *)
Definition selector_calls (evs : list Event) : list Event :=
  filter (λ ev, is_select ev = true) evs.

Definition engine_queries (evs : list Event) : list Event :=
  filter (λ ev, is_engine_query ev = true) evs.

(** How often the body of the routine was started on [file_path]: the
    body's first statement loads exactly that file. *)
Definition starts_body (file_path : string) (ev : Event) : bool :=
  match ev with
  | called (SimpleDirectoryReader_load_data [p]) => bool_decide (p = file_path)
  | _ => false
  end.

Definition body_runs (file_path : string) (tr : list Event) : nat :=
  length (filter (λ ev, starts_body file_path ev = true) tr).

(** What may happen between two calls of the routine: reruns of the
    script and further calls of the routine. *)
Inductive Activity :=
| Rerun (inp : Inputs)
| Setup_call (key : option string) (file_path : string).

Definition exec (lib : Library) (acts : list Activity) (w : World) : World :=
  foldl (λ w act,
           match act with
           | Rerun inp => snd (script lib inp w)
           | Setup_call key file_path =>
               snd (load_and_process_data lib key file_path w)
           end) w acts.

(** Every router in the cache was built by [load_and_process_data]. *)
Definition cache_ok (w : World) : Prop :=
  ∀ arg eng, cache w !! arg = Some eng → ∃ nodes, eng = router_of nodes.

(** A computation is [tidy] when it only appends to the log and every
    exception logged during it is its outcome. *)
Definition tidy {A} (m : M A) : Prop :=
  ∀ w, ∃ evs,
    trace (snd (m w)) = trace w ++ evs ∧
    ∀ e, raised e ∈ evs → fst (m w) = Raise e.

(** A computation is framed by [Q] when it only appends events that
    satisfy [Q] to the log and leaves the disk alone. *)
Definition framed (Q : Event → Prop) {A} (m : M A) : Prop :=
  ∀ w, ∃ evs,
    trace (snd (m w)) = trace w ++ evs ∧
    fs (snd (m w)) = fs w ∧
    Forall Q evs.

(** Events other than a removal of a file. *)
Definition not_unlink (ev : Event) : Prop :=
  match ev with
  | os_unlink _ => False
  | _ => True
  end.

(** A rendering only displays: whatever its outcome, it leaves the disk
    alone and logs no removal of a file. *)
Definition display_only (render : Response → M unit) : Prop :=
  ∀ response, framed not_unlink (render response).

(** A computation preserves a property of the state. *)
Definition preserves (P : World → Prop) {A} (m : M A) : Prop :=
  ∀ w, P w → P (snd (m w)).

(** The first events of a run with an upload: title, uploader, and the
    temporary file being created, written and closed. *)
Definition header_events (lib : Library) (f : UploadedFile) (w : World)
    : list Event :=
  [ st_markdown title_html true;
    st_file_uploader "Choose a PDF file" "pdf";
    tempfile_open (tmp_path lib w);
    tempfile_write (tmp_path lib w) (getvalue f);
    tempfile_close (tmp_path lib w) ].

(** What lines 84 to 97 may log: the question widgets, the spinner, the
    router's calls, the rendering of the answer, the removal of the file,
    and the exception that ended them. *)
Definition stage_event (ev : Event) : Prop :=
  match ev with
  | st_text_input _ _ => True
  | st_button _ => True
  | st_spinner_enter _ => True
  | st_spinner_exit => True
  | st_write _ => True
  | st_markdown _ _ => True
  | os_unlink _ => True
  | raised _ => True
  | called (LLMSingleSelector_select _ _ _) => True
  | called (QueryEngine_query _ _) => True
  | _ => False
  end.

Definition is_sidebar (ev : Event) : bool :=
  match ev with
  | st_sidebar_title _ => true
  | st_sidebar_info _ => true
  | _ => false
  end.



(** ** Sample libraries and inputs *)

Definition pdf_bytes : bytes := [Byte.x25; Byte.x50; Byte.x44; Byte.x46].

Definition sample_upload : UploadedFile :=
  {| upload_name := "report.pdf"; getvalue := pdf_bytes |}.

(** A library in which every call succeeds and the selector picks the
    vector tool. *)
Definition lib_ok : Library :=
  {| mkstemp_stem := fun _ => "/tmp/tmpk3v9x0qa";
     lib_load_data := fun w files =>
       match files with
       | [p] => match fs w !! p with
                | Some _ => Ok [ {| doc_text := "page one" |} ]
                | None => Raise (FileNotFoundError p)
                end
       | _ => Ok []
       end;
     lib_get_nodes := fun _ _ docs =>
       Ok ((fun d => {| node_text := doc_text d |}) <$> docs);
     lib_raises := fun _ _ => None;
     lib_select := fun _ _ _ _ => Ok 1;
     lib_query := fun _ qe _ =>
       Ok {| response_text := match qe_index qe with
                              | SummaryIndex _ => "a summary"
                              | VectorStoreIndex _ => "similar passages"
                              end |} |}.

(** The same library with the remote model unreachable when a question is
    asked. *)
Definition lib_query_down : Library :=
  {| mkstemp_stem := mkstemp_stem lib_ok;
     lib_load_data := lib_load_data lib_ok;
     lib_get_nodes := lib_get_nodes lib_ok;
     lib_raises := lib_raises lib_ok;
     lib_select := lib_select lib_ok;
     lib_query := fun _ _ _ => Raise (LibraryError "APIConnectionError") |}.

(** A library whose reader fails on every file. *)
Definition lib_load_down : Library :=
  {| mkstemp_stem := mkstemp_stem lib_ok;
     lib_load_data := fun _ _ => Raise (LibraryError "cannot parse");
     lib_get_nodes := lib_get_nodes lib_ok;
     lib_raises := lib_raises lib_ok;
     lib_select := lib_select lib_ok;
     lib_query := lib_query lib_ok |}.

Definition inp_click : Inputs :=
  {| OPENAI_API_KEY := Some "sk-test";
     uploaded_file := Some sample_upload;
     typed_query := None;
     button_clicked := true |}.

Definition inp_no_click : Inputs :=
  {| OPENAI_API_KEY := Some "sk-test";
     uploaded_file := Some sample_upload;
     typed_query := Some "Who wrote it?";
     button_clicked := false |}.

Definition inp_no_file : Inputs :=
  {| OPENAI_API_KEY := Some "sk-test";
     uploaded_file := None;
     typed_query := None;
     button_clicked := false |}.

(** A rendering in which [st.markdown] fails after "Response:" was
    written. *)
Definition render_markdown_fails (response : Response) : M unit :=
  emit (st_write "Response:");;
  raise (LibraryError "StreamlitAPIException").

(** A disk that holds one PDF, for the samples below. *)
Definition w_one_file : World :=
  set_fs (insert "/tmp/a.pdf" pdf_bytes) initial.

Definition sample_nodes : list Node := [ {| node_text := "page one" |} ].
Definition sample_documents : list Document := [ {| doc_text := "page one" |} ].

(** A library in which building the vector index fails (the embedding
    service is unreachable). *)
Definition lib_index_down : Library :=
  {| mkstemp_stem := mkstemp_stem lib_ok;
     lib_load_data := lib_load_data lib_ok;
     lib_get_nodes := lib_get_nodes lib_ok;
     lib_raises := fun _ c =>
       match c with
       | VectorStoreIndex_init _ => Some (LibraryError "APIConnectionError")
       | _ => None
       end;
     lib_select := lib_select lib_ok;
     lib_query := lib_query lib_ok |}.

(** * Properties *)

(** ** Reading a state that was built by updates *)

Lemma World_eq (w w' : World) :
  fs w = fs w' → cache w = cache w' → settings w = settings w' →
  trace w = trace w' → w = w'.
Proof. destruct w, w'; simpl; congruence. Qed.

Lemma fs_log ev w : fs (log ev w) = fs w.
Proof. done. Qed.
Lemma cache_log ev w : cache (log ev w) = cache w.
Proof. done. Qed.
Lemma settings_log ev w : settings (log ev w) = settings w.
Proof. done. Qed.
Lemma trace_log ev w : trace (log ev w) = trace w ++ [ev].
Proof. done. Qed.

Lemma fs_set_fs f w : fs (set_fs f w) = f (fs w).
Proof. done. Qed.
Lemma cache_set_fs f w : cache (set_fs f w) = cache w.
Proof. done. Qed.
Lemma settings_set_fs f w : settings (set_fs f w) = settings w.
Proof. done. Qed.
Lemma trace_set_fs f w : trace (set_fs f w) = trace w.
Proof. done. Qed.

Lemma fs_set_settings f w : fs (set_settings f w) = fs w.
Proof. done. Qed.
Lemma cache_set_settings f w : cache (set_settings f w) = cache w.
Proof. done. Qed.
Lemma settings_set_settings f w : settings (set_settings f w) = f (settings w).
Proof. done. Qed.
Lemma trace_set_settings f w : trace (set_settings f w) = trace w.
Proof. done. Qed.

Lemma fs_set_cache f w : fs (set_cache f w) = fs w.
Proof. done. Qed.
Lemma cache_set_cache f w : cache (set_cache f w) = f (cache w).
Proof. done. Qed.
Lemma settings_set_cache f w : settings (set_cache f w) = settings w.
Proof. done. Qed.
Lemma trace_set_cache f w : trace (set_cache f w) = trace w.
Proof. done. Qed.

Create Rewrite HintDb world.
#[local] Hint Rewrite fs_log cache_log settings_log trace_log
  fs_set_fs cache_set_fs settings_set_fs trace_set_fs
  fs_set_settings cache_set_settings settings_set_settings trace_set_settings
  fs_set_cache cache_set_cache settings_set_cache trace_set_cache : world.

(** Reads the components of a state through its updates, one update at
    a time. *)
Ltac world :=
  autorewrite with world in *; cbn [fst snd fs cache settings trace] in *;
  rewrite <- ?app_assoc; cbn [app] in *.

(** Two states are equal when their components are. *)
Ltac world_eq :=
  apply World_eq; autorewrite with world;
  cbn [fs cache settings trace llm embedding];
  rewrite <- ?app_assoc; try reflexivity.

(** ** The log only grows *)

Lemma events_of_app {A} (m : M A) (w : World) (evs : list Event) :
  trace (snd (m w)) = trace w ++ evs → events_of m w = evs.
Proof. unfold events_of. intros ->. by rewrite drop_app_length. Qed.

(** ** Sequencing *)

(** Sequencing, once the outcome of the first computation is known. *)
Lemma bind_returns {A B} (m : M A) (k : A → M B) w a w1 :
  m w = (Ok a, w1) → bind m k w = k a w1.
Proof. unfold bind. by intros ->. Qed.

Lemma bind_raises {A B} (m : M A) (k : A → M B) w e w1 :
  m w = (Raise e, w1) → bind m k w = (Raise e, w1).
Proof. unfold bind. by intros ->. Qed.

Lemma sidebar_spec w :
  sidebar w =
    (Ok tt,
     {| fs := fs w; cache := cache w; settings := settings w;
        trace := trace w ++ sidebar_events |}).
Proof.
  unfold sidebar, sidebar_events, bind, emit. f_equal. world_eq.
Qed.

(** Inversion of a computation that returned. *)
Lemma bind_Ok {A B} (m : M A) (k : A → M B) w b w' :
  bind m k w = (Ok b, w') →
  ∃ a w1, m w = (Ok a, w1) ∧ k a w1 = (Ok b, w').
Proof.
  unfold bind. destruct (m w) as [[a|e] w1]; [|discriminate]. eauto.
Qed.

Lemma call_Ok {A} c (oracle : World → result A) w a w' :
  call c oracle w = (Ok a, w') → oracle w = Ok a ∧ w' = log (called c) w.
Proof.
  unfold call, raise. destruct (oracle w); intros [= <- <-]; done.
Qed.

Lemma construct_Ok {A} lib c (a a' : A) w w' :
  construct lib c a w = (Ok a', w') → a' = a ∧ w' = log (called c) w.
Proof.
  unfold construct. intros [H ->]%call_Ok. split; [|done].
  destruct (lib_raises lib w c); congruence.
Qed.

Lemma Settings_set_llm_Ok v w u w' :
  Settings_set_llm v w = (Ok u, w') →
  w' = log (Settings_llm_set v)
         (set_settings (λ s, {| llm := Some v; embedding := embedding s |}) w).
Proof. by intros [= <-]. Qed.

Lemma Settings_set_embedding_Ok v w u w' :
  Settings_set_embedding v w = (Ok u, w') →
  w' = log (Settings_embedding_set v)
         (set_settings (λ s, {| llm := llm s; embedding := Some v |}) w).
Proof. by intros [= <-]. Qed.

Lemma body_returns lib key file_path w eng w' :
  load_and_process_data_body lib key file_path w = (Ok eng, w') →
  ∃ documents nodes,
    lib_load_data lib w [file_path] = Ok documents ∧
    lib_get_nodes lib (log (called (SimpleDirectoryReader_load_data [file_path])) w)
                  {| chunk_size := 1024 |} documents = Ok nodes ∧
    eng = router_of nodes ∧
    w' = {| fs := fs w; cache := cache w; settings := body_settings key;
            trace := trace w ++ body_events key file_path documents nodes |}.
Proof.
  unfold load_and_process_data_body. intros H.
  apply bind_Ok in H as (documents & w1 & [Hload ->]%call_Ok & H).
  apply bind_Ok in H as (nodes & w2 & [Hnodes ->]%call_Ok & H).
  apply bind_Ok in H as (u1 & w3 & ->%Settings_set_llm_Ok & H).
  apply bind_Ok in H as (u2 & w4 & ->%Settings_set_embedding_Ok & H).
  apply bind_Ok in H as (si & w5 & [-> ->]%construct_Ok & H).
  apply bind_Ok in H as (vi & w6 & [-> ->]%construct_Ok & H).
  apply bind_Ok in H as (sq & w7 & [-> ->]%construct_Ok & H).
  apply bind_Ok in H as (vq & w8 & [-> ->]%construct_Ok & H).
  injection H as <- <-.
  exists documents, nodes. split; [done|]. split; [done|]. split; [done|].
  unfold body_settings, body_events. world_eq.
Qed.

(** ** The body of [load_and_process_data] *)

Ltac unfold_prims :=
  unfold Settings_set_llm, Settings_set_embedding, spinner, text_input,
    button, construct in *;
  unfold call, with_, raise, bind, ret, modify, emit in *;
  cbn beta in *.

Ltac flatten_trace :=
  unfold log, set_settings, set_fs, set_cache; simpl;
  rewrite <- ?app_assoc; simpl.

(** A computation that leaves the disk alone and logs only events of one
    kind. *)
Lemma framed_ret (Q : Event → Prop) {A} (a : A) : framed Q (ret a).
Proof. intros w. exists []. simpl. by rewrite app_nil_r. Qed.

Lemma framed_emit (Q : Event → Prop) ev : Q ev → framed Q (emit ev).
Proof. intros Hev w. exists [ev]. simpl. by repeat constructor. Qed.

Lemma framed_settings (Q : Event → Prop) f : framed Q (modify (set_settings f)).
Proof. intros w. exists []. simpl. by rewrite app_nil_r. Qed.

Lemma framed_call (Q : Event → Prop) {A} c (oracle : World → result A) :
  Q (called c) → (∀ e, Q (raised e)) → framed Q (call c oracle).
Proof.
  intros Hc He w. unfold call, raise. destruct (oracle w) as [a|e]; simpl.
  - exists [called c]. by repeat constructor.
  - exists [called c; raised e]. rewrite <- app_assoc. by repeat constructor.
Qed.

Lemma framed_bind (Q : Event → Prop) {A B} (m : M A) (k : A → M B) :
  framed Q m → (∀ a, framed Q (k a)) → framed Q (bind m k).
Proof.
  intros Hm Hk w. unfold bind.
  destruct (Hm w) as (evs1 & Ht1 & Hf1 & Hq1).
  destruct (m w) as [[a|e] w1]; simpl in *; [|by exists evs1].
  destruct (Hk a w1) as (evs2 & Ht2 & Hf2 & Hq2).
  exists (evs1 ++ evs2). rewrite Ht2, Ht1, Hf2, Hf1, app_assoc.
  split; [done|]. split; [done|]. by apply Forall_app.
Qed.

Lemma body_frame lib key file_path :
  framed setup_event (load_and_process_data_body lib key file_path).
Proof.
  unfold load_and_process_data_body, Settings_set_llm, Settings_set_embedding,
    construct.
  repeat first
    [ apply framed_bind; [|intros ?]
    | apply framed_call; [done|done]
    | apply framed_emit; done
    | apply framed_settings
    | apply framed_ret ].
Qed.

(** C3, as stated, fails: a complete execution of the body performs two
    more steps than the listed ones.  Between splitting and building the
    indices it rebinds [Settings.llm] and [Settings.embedding], so its log
    is not the listed sequence and the global settings are changed. *)
Lemma C3_counterexample :
  let m := load_and_process_data_body lib_ok (Some "sk-test") "/tmp/a.pdf" in
  fst (m w_one_file) = Ok (router_of sample_nodes) ∧
  events_of m w_one_file ≠ listed_steps "/tmp/a.pdf" sample_documents sample_nodes ∧
  events_of m w_one_file !! 2%nat =
    Some (Settings_llm_set
            {| llm_model := "gpt-4o-mini"; llm_api_key := Some "sk-test" |}) ∧
  settings w_one_file = {| llm := None; embedding := None |} ∧
  settings (snd (m w_one_file)) = body_settings (Some "sk-test").
Proof.
  cbv zeta. split; [reflexivity|]. split; [|split; [reflexivity|]].
  - vm_compute. discriminate.
  - split; reflexivity.
Qed.

(** C3 (amended): whenever [load_and_process_data]'s body returns, it has
    performed, in this order: loading the documents from the path;
    splitting them into nodes; assigning [Settings.llm] and
    [Settings.embedding]; building a [SummaryIndex] and a
    [VectorStoreIndex] over those same nodes; taking each index's query
    engine.  It returns a [RouterQueryEngine] with an LLM single selector
    over two tools, each wrapping one of the query engines and carrying a
    natural-language description. *)
Theorem C3_setup_steps lib key file_path w eng w' :
  load_and_process_data_body lib key file_path w = (Ok eng, w') →
  ∃ documents nodes,
    events_of (load_and_process_data_body lib key file_path) w =
      [ called (SimpleDirectoryReader_load_data [file_path]);
        called (get_nodes_from_documents {| chunk_size := 1024 |} documents);
        Settings_llm_set {| llm_model := "gpt-4o-mini"; llm_api_key := key |};
        Settings_embedding_set
          {| emb_model := "text-embedding-ada-002"; emb_api_key := key |};
        called (SummaryIndex_init nodes);
        called (VectorStoreIndex_init nodes);
        called (as_query_engine (summary_query_engine_of nodes));
        called (as_query_engine (vector_query_engine_of nodes)) ] ∧
    eng =
      {| selector := LLMSingleSelector_from_defaults;
         query_engine_tools :=
           [ {| query_engine := summary_query_engine_of nodes;
                metadata := {| description := summary_description;
                               name := None |} |};
             {| query_engine := vector_query_engine_of nodes;
                metadata := {| description := vector_description;
                               name := None |} |} ];
         verbose := true |} ∧
    qe_index (summary_query_engine_of nodes) = SummaryIndex nodes ∧
    qe_index (vector_query_engine_of nodes) = VectorStoreIndex nodes.
Proof.
  intros H. destruct (body_returns _ _ _ _ _ _ H) as (docs & nodes & _ & _ & -> & ->).
  exists docs, nodes. split; [|done].
  apply events_of_app. by rewrite H.
Qed.

Lemma C3_setup_steps_witness :
  ∃ documents nodes,
    events_of (load_and_process_data_body lib_ok None "/tmp/a.pdf") w_one_file =
      [ called (SimpleDirectoryReader_load_data ["/tmp/a.pdf"]);
        called (get_nodes_from_documents {| chunk_size := 1024 |} documents);
        Settings_llm_set {| llm_model := "gpt-4o-mini"; llm_api_key := None |};
        Settings_embedding_set
          {| emb_model := "text-embedding-ada-002"; emb_api_key := None |};
        called (SummaryIndex_init nodes);
        called (VectorStoreIndex_init nodes);
        called (as_query_engine (summary_query_engine_of nodes));
        called (as_query_engine (vector_query_engine_of nodes)) ] ∧
    router_of sample_nodes =
      {| selector := LLMSingleSelector_from_defaults;
         query_engine_tools :=
           [ {| query_engine := summary_query_engine_of nodes;
                metadata := {| description := summary_description;
                               name := None |} |};
             {| query_engine := vector_query_engine_of nodes;
                metadata := {| description := vector_description;
                               name := None |} |} ];
         verbose := true |} ∧
    qe_index (summary_query_engine_of nodes) = SummaryIndex nodes ∧
    qe_index (vector_query_engine_of nodes) = VectorStoreIndex nodes.
Proof.
  apply (C3_setup_steps lib_ok None "/tmp/a.pdf" w_one_file
           (router_of sample_nodes)
           (snd (load_and_process_data_body lib_ok None "/tmp/a.pdf" w_one_file))).
  vm_compute. reflexivity.
Defined.

(** C6: the only splitter the setup routine ever uses is the one it
    constructs with [chunk_size=1024]; when the routine returns, the nodes
    under both indices are exactly the nodes that splitter produced. *)
Theorem C6_chunk_size lib key file_path w :
  (∀ sp docs,
     called (get_nodes_from_documents sp docs)
       ∈ events_of (load_and_process_data_body lib key file_path) w →
     chunk_size sp = 1024%Z) ∧
  (∀ eng w',
     load_and_process_data_body lib key file_path w = (Ok eng, w') →
     ∃ documents nodes,
       lib_get_nodes lib
         (log (called (SimpleDirectoryReader_load_data [file_path])) w)
         {| chunk_size := 1024 |} documents = Ok nodes ∧
       (qe_index ∘ query_engine) <$> query_engine_tools eng =
         [SummaryIndex nodes; VectorStoreIndex nodes]).
Proof.
  split.
  - intros sp docs Hin.
    destruct (body_frame lib key file_path w) as (evs & Htr & _ & Hall).
    rewrite (events_of_app _ _ _ Htr) in Hin.
    rewrite Forall_forall in Hall. exact (Hall _ Hin).
  - intros eng w' H.
    destruct (body_returns _ _ _ _ _ _ H) as (docs & nodes & _ & Hn & -> & _).
    by exists docs, nodes.
Qed.

Lemma C6_chunk_size_witness :
  chunk_size {| chunk_size := 1024 |} = 1024%Z ∧
  ∃ documents nodes,
    lib_get_nodes lib_ok
      (log (called (SimpleDirectoryReader_load_data ["/tmp/a.pdf"])) w_one_file)
      {| chunk_size := 1024 |} documents = Ok nodes ∧
    (qe_index ∘ query_engine) <$> query_engine_tools (router_of sample_nodes) =
      [SummaryIndex nodes; VectorStoreIndex nodes].
Proof.
  pose proof (C6_chunk_size lib_ok None "/tmp/a.pdf" w_one_file) as [H1 H2].
  split.
  - apply (H1 _ sample_documents). vm_compute.
    apply list_elem_of_lookup. by exists 1%nat.
  - apply (H2 (router_of sample_nodes)
              (snd (load_and_process_data_body lib_ok None "/tmp/a.pdf" w_one_file))).
    vm_compute. reflexivity.
Defined.

(** C7, as stated, fails: neither tool the routine builds carries a name;
    [ToolMetadata] is constructed with a description only. *)
Lemma C7_counterexample :
  ∃ eng w',
    load_and_process_data_body lib_ok None "/tmp/a.pdf" w_one_file = (Ok eng, w') ∧
    (name ∘ metadata) <$> query_engine_tools eng = [None; None].
Proof. eexists _, _. split; vm_compute; reflexivity. Qed.

(** C7 (amended): each of the two tools handed to the router wraps its
    query engine and is annotated with a natural-language description,
    the one the selector is shown; the routine gives neither tool a
    name. *)
Theorem C7_tools_described lib key file_path w eng w' :
  load_and_process_data_body lib key file_path w = (Ok eng, w') →
  ∃ nodes,
    query_engine <$> query_engine_tools eng =
      [summary_query_engine_of nodes; vector_query_engine_of nodes] ∧
    (description ∘ metadata) <$> query_engine_tools eng =
      [ "Useful for summarizing the uploaded PDF.";
        "Useful for finding similar sentences in the uploaded PDF." ]%string ∧
    (name ∘ metadata) <$> query_engine_tools eng = [None; None].
Proof.
  intros H. destruct (body_returns _ _ _ _ _ _ H) as (_ & nodes & _ & _ & -> & _).
  by exists nodes.
Qed.

Lemma C7_tools_described_witness :
  ∃ nodes,
    query_engine <$> query_engine_tools (router_of sample_nodes) =
      [summary_query_engine_of nodes; vector_query_engine_of nodes] ∧
    (description ∘ metadata) <$> query_engine_tools (router_of sample_nodes) =
      [ "Useful for summarizing the uploaded PDF.";
        "Useful for finding similar sentences in the uploaded PDF." ]%string ∧
    (name ∘ metadata) <$> query_engine_tools (router_of sample_nodes) = [None; None].
Proof.
  apply (C7_tools_described lib_ok None "/tmp/a.pdf" w_one_file
           (router_of sample_nodes)
           (snd (load_and_process_data_body lib_ok None "/tmp/a.pdf" w_one_file))).
  vm_compute. reflexivity.
Defined.

(** ** Exceptions are not handled

    A computation is [tidy] when it only appends to the log and every
    exception logged during it is its outcome.  The script is built from
    tidy pieces by sequencing, branching and [with], none of which
    handles an exception. *)

Lemma tidy_ret {A} (a : A) : tidy (ret a).
Proof. intros w. exists []. simpl. rewrite app_nil_r. set_solver. Qed.

Lemma tidy_emit ev : (∀ e, ev ≠ raised e) → tidy (emit ev).
Proof.
  intros Hev w. exists [ev]. split; [done|].
  intros e He. apply list_elem_of_singleton in He. by destruct (Hev e).
Qed.

Lemma tidy_modify f : (∀ w, trace (f w) = trace w) → tidy (modify f).
Proof.
  intros Hf w. exists []. simpl. rewrite Hf, app_nil_r. set_solver.
Qed.

Lemma tidy_raise {A} e : tidy (@raise A e).
Proof.
  intros w. exists [raised e]. split; [done|].
  intros e' He. apply list_elem_of_singleton in He. by simplify_eq.
Qed.

Lemma tidy_call {A} c (oracle : World → result A) : tidy (call c oracle).
Proof.
  intros w. unfold call, raise. destruct (oracle w) as [a|e]; simpl.
  - exists [called c]. split; [done|]. set_solver.
  - exists [called c; raised e]. rewrite <- app_assoc. split; [done|].
    intros e' He. set_solver.
Qed.

Lemma tidy_construct {A} lib c (a : A) : tidy (construct lib c a).
Proof. apply tidy_call. Qed.

Lemma tidy_bind {A B} (m : M A) (k : A → M B) :
  tidy m → (∀ a, tidy (k a)) → tidy (bind m k).
Proof.
  intros Hm Hk w. unfold bind.
  destruct (Hm w) as (evs1 & Ht1 & Hr1).
  destruct (m w) as [[a|e] w1] eqn:Hmw; simpl in *.
  - destruct (Hk a w1) as (evs2 & Ht2 & Hr2).
    exists (evs1 ++ evs2). rewrite Ht2, Ht1, app_assoc. split; [done|].
    intros e He. apply elem_of_app in He as [He|He]; [|by apply Hr2].
    by specialize (Hr1 _ He).
  - exists evs1. split; [done|].
    intros e0 He0. specialize (Hr1 _ He0). by simplify_eq.
Qed.

Lemma tidy_with {A} (enter : M unit) (exit : World → World) (body : M A) evx :
  tidy enter → tidy body →
  (∀ e, raised e ∉ evx) → (∀ w, trace (exit w) = trace w ++ evx) →
  tidy (with_ enter exit body).
Proof.
  intros He Hb Hx Hexit w. unfold with_.
  destruct (He w) as (evs1 & Ht1 & Hr1).
  destruct (enter w) as [[[]|e] w1] eqn:Hew; simpl in *.
  - destruct (Hb w1) as (evs2 & Ht2 & Hr2).
    destruct (body w1) as [r w2] eqn:Hbw; simpl in *.
    exists (evs1 ++ evs2 ++ evx).
    rewrite Hexit, Ht2, Ht1, <- !app_assoc. split; [done|].
    intros e Hin. rewrite !elem_of_app in Hin.
    destruct Hin as [Hin|[Hin|Hin]].
    + by specialize (Hr1 _ Hin).
    + by apply Hr2.
    + by destruct (Hx e).
  - exists evs1. split; [done|].
    intros e0 He0. specialize (Hr1 _ He0). by simplify_eq.
Qed.

Lemma tidy_if {A} (b : bool) (m1 m2 : M A) :
  tidy m1 → tidy m2 → tidy (if b then m1 else m2).
Proof. by destruct b. Qed.

Lemma tidy_cache_resource f arg :
  tidy (f arg) → tidy (st_cache_resource f arg).
Proof.
  intros Hf w. unfold st_cache_resource.
  destruct (cache w !! arg) as [v|]; simpl.
  - exists []. rewrite app_nil_r. set_solver.
  - destruct (Hf w) as (evs & Ht & Hr).
    destruct (f arg w) as [[v|e] w'] eqn:Hfw; simpl in *; by exists evs.
Qed.

Lemma tidy_unlink path : tidy (unlink path).
Proof.
  intros w. unfold unlink, raise. destruct (fs w !! path); simpl.
  - exists [os_unlink path]. split; [done|]. set_solver.
  - exists [os_unlink path; raised (FileNotFoundError path)].
    rewrite <- app_assoc. split; [done|]. set_solver.
Qed.

Create HintDb tidy.
#[local] Hint Resolve tidy_ret tidy_raise tidy_call tidy_construct
  tidy_unlink : tidy.

(** One step through a piece of the script, by its shape. *)
Ltac tidy_step :=
  lazymatch goal with
  | |- tidy (bind _ _) => apply tidy_bind; [|intros ?]
  | |- tidy (emit _) => apply tidy_emit; intros ?; discriminate
  | |- tidy (modify _) => apply tidy_modify; intros ?; reflexivity
  | |- tidy (if _ then _ else _) => apply tidy_if
  | |- tidy (ret _) => apply tidy_ret
  | |- tidy (raise _) => apply tidy_raise
  | |- tidy (call _ _) => apply tidy_call
  | |- tidy (construct _ _ _) => apply tidy_construct
  | |- tidy (unlink _) => apply tidy_unlink
  end.

Lemma tidy_body lib key file_path :
  tidy (load_and_process_data_body lib key file_path).
Proof.
  unfold load_and_process_data_body, Settings_set_llm, Settings_set_embedding.
  repeat tidy_step.
Qed.

Lemma tidy_load_and_process_data lib key file_path :
  tidy (load_and_process_data lib key file_path).
Proof. apply tidy_cache_resource, tidy_body. Qed.

Lemma tidy_query lib eng q : tidy (RouterQueryEngine_query lib eng q).
Proof.
  unfold RouterQueryEngine_query. apply tidy_bind; [auto with tidy|].
  intros i. destruct (query_engine_tools eng !! i); auto with tidy.
Qed.

Lemma tidy_write_upload lib f : tidy (write_upload lib f).
Proof.
  intros w. unfold write_upload, NamedTemporaryFile. cbv zeta.
  eapply (tidy_with _ _ _ [tempfile_close _]).
  - repeat tidy_step.
  - unfold tmp_file_write. repeat tidy_step.
  - intros e He. apply list_elem_of_singleton in He. discriminate.
  - intros w'. reflexivity.
Qed.

Lemma tidy_answer_and_cleanup lib inp path eng :
  tidy (answer_and_cleanup lib inp path eng).
Proof.
  unfold answer_and_cleanup, text_input, button.
  apply tidy_bind; [repeat tidy_step|]. intros q.
  apply tidy_bind; [repeat tidy_step|]. intros clicked.
  apply tidy_bind; [|intros _; apply tidy_unlink].
  destruct clicked; [|apply tidy_ret].
  unfold spinner. eapply (tidy_with _ _ _ [st_spinner_exit]).
  - repeat tidy_step.
  - apply tidy_bind; [apply tidy_query|]. intros resp. repeat tidy_step.
  - intros e He. apply list_elem_of_singleton in He. discriminate.
  - intros w'. reflexivity.
Qed.

Lemma tidy_script lib inp : tidy (script lib inp).
Proof.
  unfold script.
  apply tidy_bind; [repeat tidy_step|]. intros _.
  apply tidy_bind; [repeat tidy_step|]. intros _.
  apply tidy_bind; [|intros _; unfold sidebar; repeat tidy_step].
  destruct (uploaded_file inp) as [f|]; [|repeat tidy_step].
  unfold handle_upload.
  apply tidy_bind; [apply tidy_write_upload|]. intros path.
  apply tidy_bind; [apply tidy_load_and_process_data|]. intros eng.
  apply tidy_answer_and_cleanup.
Qed.

(** C5: the script installs no failure handling.  Whatever exception a
    call into the library or the remote API raises during a run (while
    loading, splitting, indexing or querying), the run ends with exactly
    that exception: it leaves the script unchanged, to Streamlit. *)
Theorem C5_exceptions_propagate lib inp w e :
  raised e ∈ events_of (script lib inp) w →
  fst (script lib inp w) = Raise e.
Proof.
  destruct (tidy_script lib inp w) as (evs & Ht & Hr).
  rewrite (events_of_app _ _ _ Ht). apply Hr.
Qed.

Lemma C5_exceptions_propagate_witness :
  raised (LibraryError "APIConnectionError")
    ∈ events_of (script lib_query_down inp_click) initial ∧
  fst (script lib_query_down inp_click initial)
    = Raise (LibraryError "APIConnectionError").
Proof.
  assert (H : raised (LibraryError "APIConnectionError")
                ∈ events_of (script lib_query_down inp_click) initial).
  { vm_compute. apply list_elem_of_lookup. by exists 18%nat. }
  split; [exact H|].
  exact (C5_exceptions_propagate lib_query_down inp_click initial _ H).
Defined.

(** Where [raised] comes from: a call logs it exactly when the oracle
    answered with an exception. *)
Lemma call_raised {A} c (oracle : World → result A) w e :
  raised e ∈ events_of (call c oracle) w ↔ oracle w = Raise e.
Proof.
  unfold events_of, call, raise. destruct (oracle w) as [a|e']; simpl;
    rewrite <- ?app_assoc, drop_app_length; set_solver.
Qed.

(** ** Invariants of the state

    A property of the state that logging, file operations, assignments to
    [Settings] and storing a freshly built router under an unused key
    preserve is preserved by every piece of the script. *)

Section Invariant.
Variable P : World → Prop.
Hypothesis P_log : ∀ ev w, P w → P (log ev w).
Hypothesis P_fs : ∀ f w, P w → P (set_fs f w).
Hypothesis P_settings : ∀ f w, P w → P (set_settings f w).
Hypothesis P_store :
  ∀ arg nodes w, cache w !! arg = None → P w →
                 P (set_cache (insert arg (router_of nodes)) w).

Abbreviation inv := (preserves P).

Lemma inv_ret {A} (a : A) : inv (ret a).
Proof. by intros w. Qed.

Lemma inv_emit ev : inv (emit ev).
Proof. intros w. apply P_log. Qed.

Lemma inv_raise {A} e : inv (@raise A e).
Proof. intros w. apply P_log. Qed.

Lemma inv_call {A} c (oracle : World → result A) : inv (call c oracle).
Proof.
  intros w Hw. unfold call, raise. destruct (oracle w); simpl; auto.
Qed.

Lemma inv_bind {A B} (m : M A) (k : A → M B) :
  inv m → (∀ a, inv (k a)) → inv (bind m k).
Proof.
  intros Hm Hk w Hw. unfold bind. specialize (Hm w Hw).
  destruct (m w) as [[a|e] w1]; simpl in *; [by apply Hk|done].
Qed.

Lemma inv_with {A} (enter : M unit) (exit : World → World) (body : M A) :
  inv enter → inv body → (∀ w, P w → P (exit w)) →
  inv (with_ enter exit body).
Proof.
  intros He Hb Hx w Hw. unfold with_. specialize (He w Hw).
  destruct (enter w) as [[[]|e] w1]; simpl in *; [|done].
  specialize (Hb w1 He). destruct (body w1) as [r w2]; simpl in *. auto.
Qed.

(** One step through a piece of the script, by its shape. *)
Ltac inv_step :=
  lazymatch goal with
  | |- preserves _ (bind _ _) => apply inv_bind; [|intros ?]
  | |- preserves _ (emit _) => apply inv_emit
  | |- preserves _ (ret _) => apply inv_ret
  | |- preserves _ (raise _) => apply inv_raise
  | |- preserves _ (call _ _) => apply inv_call
  | |- preserves _ (construct _ _ _) => apply inv_call
  | |- preserves _ (modify (set_settings _)) =>
      intros ? ?; by apply P_settings
  | |- preserves _ (modify (set_fs _)) => intros ? ?; by apply P_fs
  end.

Lemma inv_body lib key file_path :
  inv (load_and_process_data_body lib key file_path).
Proof.
  unfold load_and_process_data_body, Settings_set_llm,
    Settings_set_embedding.
  repeat inv_step.
Qed.

Lemma inv_load_and_process_data lib key file_path :
  inv (load_and_process_data lib key file_path).
Proof.
  intros w Hw. unfold load_and_process_data, st_cache_resource.
  destruct (cache w !! file_path) as [v|] eqn:Hc; [done|].
  pose proof (inv_body lib key file_path w Hw) as Hb.
  destruct (load_and_process_data_body lib key file_path w)
    as [[v|e] w'] eqn:Hbody; [|done].
  destruct (body_returns _ _ _ _ _ _ Hbody) as (docs & nodes & _ & _ & Hv & Hw').
  rewrite Hv. apply P_store; [|done].
  rewrite Hw'. exact Hc.
Qed.

Lemma inv_query lib eng q : inv (RouterQueryEngine_query lib eng q).
Proof.
  unfold RouterQueryEngine_query. apply inv_bind; [apply inv_call|].
  intros i. destruct (query_engine_tools eng !! i);
    [apply inv_call|apply inv_raise].
Qed.

Lemma inv_unlink path : inv (unlink path).
Proof.
  intros w Hw. unfold unlink, raise.
  destruct (fs w !! path); simpl; auto.
Qed.

Lemma inv_write_upload lib f : inv (write_upload lib f).
Proof.
  intros w. unfold write_upload, NamedTemporaryFile. cbv zeta.
  apply inv_with.
  - repeat inv_step.
  - unfold tmp_file_write. repeat inv_step.
  - auto.
Qed.

Lemma inv_answer_and_cleanup lib inp path eng :
  inv (answer_and_cleanup lib inp path eng).
Proof.
  unfold answer_and_cleanup, text_input, button.
  apply inv_bind; [repeat inv_step|]. intros q.
  apply inv_bind; [repeat inv_step|]. intros clicked.
  apply inv_bind; [|intros _; apply inv_unlink].
  destruct clicked; [|apply inv_ret].
  unfold spinner. apply inv_with; [apply inv_emit| |auto].
  apply inv_bind; [apply inv_query|]. intros resp. repeat inv_step.
Qed.

Lemma inv_script lib inp : inv (script lib inp).
Proof.
  unfold script.
  apply inv_bind; [apply inv_emit|]. intros _.
  apply inv_bind; [apply inv_emit|]. intros _.
  apply inv_bind; [|intros _; unfold sidebar; repeat inv_step].
  destruct (uploaded_file inp) as [f|]; [|apply inv_emit].
  unfold handle_upload.
  apply inv_bind; [apply inv_write_upload|]. intros path.
  apply inv_bind; [apply inv_load_and_process_data|]. intros eng.
  apply inv_answer_and_cleanup.
Qed.

Lemma inv_reruns lib inps w : P w → P (reruns lib inps w).
Proof.
  revert w. induction inps as [|inp inps IH]; intros w Hw; simpl; [done|].
  apply IH. by apply inv_script.
Qed.
End Invariant.

Lemma cache_ok_reruns lib inps : cache_ok (reruns lib inps initial).
Proof.
  apply (inv_reruns cache_ok); try done.
  intros arg nodes w Hnone Hw arg' eng. rewrite cache_set_cache.
  destruct (decide (arg = arg')) as [->|Hne].
  - rewrite lookup_insert_eq. intros [= <-]. by exists nodes.
  - rewrite lookup_insert_ne by done. apply Hw.
Qed.

(** An entry of the cache is never dropped or replaced. *)
Lemma cache_entry_script lib inp w arg eng :
  cache w !! arg = Some eng → cache (snd (script lib inp w)) !! arg = Some eng.
Proof.
  apply (inv_script (λ w, cache w !! arg = Some eng)); try done.
  intros arg' nodes w' Hnone Hw'. rewrite cache_set_cache.
  rewrite lookup_insert_ne; [done|]. intros ->. congruence.
Qed.

Lemma cache_entry_setup lib key file_path w arg eng :
  cache w !! arg = Some eng →
  cache (snd (load_and_process_data lib key file_path w)) !! arg = Some eng.
Proof.
  apply (inv_load_and_process_data (λ w, cache w !! arg = Some eng));
    try done.
  intros arg' nodes w' Hnone Hw'. rewrite cache_set_cache.
  rewrite lookup_insert_ne; [done|]. intros ->. congruence.
Qed.

(** ** Memoization of the setup routine *)

Lemma cache_entry_exec lib acts w arg eng :
  cache w !! arg = Some eng → cache (exec lib acts w) !! arg = Some eng.
Proof.
  revert w. induction acts as [|[inp|key p] acts IH]; intros w Hw; simpl;
    [done| |]; apply IH.
  - by apply cache_entry_script.
  - by apply cache_entry_setup.
Qed.

Lemma setup_stores lib key file_path w eng w1 :
  load_and_process_data lib key file_path w = (Ok eng, w1) →
  cache w1 !! file_path = Some eng.
Proof.
  unfold load_and_process_data, st_cache_resource. intros H.
  destruct (cache w !! file_path) as [v|] eqn:Hc; [by simplify_eq|].
  destruct (load_and_process_data_body lib key file_path w) as [[v|e] w'];
    simplify_eq. simpl. apply lookup_insert_eq.
Qed.

Lemma setup_hit lib key file_path w eng :
  cache w !! file_path = Some eng →
  load_and_process_data lib key file_path w = (Ok eng, w).
Proof.
  unfold load_and_process_data, st_cache_resource. by intros ->.
Qed.

(** C4, as stated, fails: when the body raises, nothing is cached, and a
    second call with the same path runs the body again. *)
Lemma C4_counterexample :
  let setup := load_and_process_data lib_load_down None "/tmp/a.pdf" in
  let w1 := snd (setup w_one_file) in
  let w2 := snd (setup w1) in
  fst (setup w_one_file) = Raise (LibraryError "cannot parse") ∧
  fst (setup w1) = Raise (LibraryError "cannot parse") ∧
  body_runs "/tmp/a.pdf" (trace w_one_file) = 0%nat ∧
  body_runs "/tmp/a.pdf" (trace w2) = 2%nat.
Proof. cbv zeta. repeat split; vm_compute; reflexivity. Qed.

(** The body starts by loading the file, once: its first event is the
    loading call, and it logs no other call that loads that file. *)
Lemma body_starts lib key file_path w :
  ∃ rest,
    trace (snd (load_and_process_data_body lib key file_path w)) =
      trace w ++ called (SimpleDirectoryReader_load_data [file_path]) :: rest ∧
    Forall (λ ev, starts_body file_path ev = false) rest.
Proof.
  unfold load_and_process_data_body.
  destruct (lib_load_data lib w [file_path]) as [documents|e] eqn:Hload.
  - erewrite bind_returns by (unfold call; by rewrite Hload).
    match goal with
    | |- context [snd (?k ?w1)] =>
        assert (framed (λ ev, starts_body file_path ev = false) k) as Hk
    end.
    { unfold Settings_set_llm, Settings_set_embedding, construct.
      repeat first
        [ apply framed_bind; [|intros ?]
        | apply framed_call; [done|done]
        | apply framed_emit; done
        | apply framed_settings
        | apply framed_ret ]. }
    destruct (Hk (log (called (SimpleDirectoryReader_load_data [file_path])) w))
      as (rest & Ht & _ & Hall).
    exists rest. split; [|done].
    rewrite Ht, trace_log, <- app_assoc. reflexivity.
  - erewrite bind_raises by (unfold call, raise; by rewrite Hload).
    exists [raised e]. cbn [snd]. split; [|by repeat constructor].
    rewrite !trace_log, <- app_assoc. reflexivity.
Qed.

Lemma body_runs_body lib key file_path w :
  body_runs file_path
    (trace (snd (load_and_process_data_body lib key file_path w)))
    = S (body_runs file_path (trace w)).
Proof.
  destruct (body_starts lib key file_path w) as (rest & -> & Hall).
  unfold body_runs. rewrite filter_app, length_app, filter_cons.
  assert (filter (λ ev, starts_body file_path ev = true) rest = []) as ->.
  { induction Hall as [|ev rest Hev _ IH]; [done|].
    rewrite filter_cons, IH. by rewrite decide_False by congruence. }
  rewrite decide_True; [cbn [length]; lia|].
  cbn [starts_body]. by apply bool_decide_eq_true.
Qed.

(** A call of the routine that raises ran the body and stored nothing. *)
Lemma setup_raises lib key file_path w e w1 :
  load_and_process_data lib key file_path w = (Raise e, w1) →
  cache w !! file_path = None ∧
  load_and_process_data_body lib key file_path w = (Raise e, w1) ∧
  cache w1 = cache w.
Proof.
  unfold load_and_process_data, st_cache_resource. intros H.
  destruct (cache w !! file_path) as [v|]; [discriminate|].
  pose proof (inv_body (λ w', cache w' = cache w)
                (λ ev w' Hw', Hw') (λ g w' Hw', Hw')
                lib key file_path w eq_refl) as Hc.
  destruct (load_and_process_data_body lib key file_path w) as [[v|e'] w'];
    [discriminate|].
  injection H as -> ->. by cbn [snd] in Hc.
Qed.

(** A call of the routine on a path the cache does not hold is a run of
    the body. *)
Lemma setup_miss lib key file_path w :
  cache w !! file_path = None →
  fst (load_and_process_data lib key file_path w)
    = fst (load_and_process_data_body lib key file_path w) ∧
  trace (snd (load_and_process_data lib key file_path w))
    = trace (snd (load_and_process_data_body lib key file_path w)).
Proof.
  unfold load_and_process_data, st_cache_resource. intros ->.
  by destruct (load_and_process_data_body lib key file_path w) as [[v|e] w'].
Qed.

(** C4 (amended): once a call of [load_and_process_data] with some path
    has returned a query engine, every later call with that path,
    whatever happened in between, returns that same engine from the
    cache and executes nothing: the state, log included, is left as it
    was.  A call whose body raises has run the body and caches nothing,
    so the next call with that path runs the body again. *)
Theorem C4_memoized lib key file_path w :
  (∀ eng w1,
     load_and_process_data lib key file_path w = (Ok eng, w1) →
     ∀ acts key',
       load_and_process_data lib key' file_path (exec lib acts w1)
         = (Ok eng, exec lib acts w1)) ∧
  (∀ e w1,
     load_and_process_data lib key file_path w = (Raise e, w1) →
     cache w1 = cache w ∧
     cache w1 !! file_path = None ∧
     body_runs file_path (trace w1) = S (body_runs file_path (trace w)) ∧
     ∀ key',
       fst (load_and_process_data lib key' file_path w1)
         = fst (load_and_process_data_body lib key' file_path w1) ∧
       body_runs file_path
         (trace (snd (load_and_process_data lib key' file_path w1)))
         = S (body_runs file_path (trace w1))).
Proof.
  split.
  - intros eng w1 H acts key'. apply setup_hit, cache_entry_exec.
    by eapply setup_stores.
  - intros e w1 H.
    destruct (setup_raises _ _ _ _ _ _ H) as (Hmiss & Hbody & Hc).
    assert (cache w1 !! file_path = None) as Hmiss1 by (by rewrite Hc).
    split; [done|]. split; [done|]. split.
    + pose proof (body_runs_body lib key file_path w) as Hr.
      by rewrite Hbody in Hr.
    + intros key'.
      destruct (setup_miss lib key' file_path w1 Hmiss1) as [Hfst Htr].
      split; [done|]. rewrite Htr. apply body_runs_body.
Qed.

Lemma C4_memoized_witness :
  (let w1 := snd (load_and_process_data lib_ok None "/tmp/a.pdf" w_one_file) in
   let acts :=
     [Rerun inp_click; Setup_call None "/tmp/b.pdf"; Rerun inp_no_file] in
   load_and_process_data lib_ok (Some "sk-other"%string) "/tmp/a.pdf"
                         (exec lib_ok acts w1)
     = (Ok (router_of sample_nodes), exec lib_ok acts w1)) ∧
  (let w1 :=
     snd (load_and_process_data lib_load_down None "/tmp/a.pdf" w_one_file) in
   cache w1 = cache w_one_file ∧
   cache w1 !! "/tmp/a.pdf" = None ∧
   body_runs "/tmp/a.pdf" (trace w1)
     = S (body_runs "/tmp/a.pdf" (trace w_one_file)) ∧
   ∀ key',
     fst (load_and_process_data lib_load_down key' "/tmp/a.pdf" w1)
       = fst (load_and_process_data_body lib_load_down key' "/tmp/a.pdf" w1) ∧
     body_runs "/tmp/a.pdf"
       (trace (snd (load_and_process_data lib_load_down key' "/tmp/a.pdf" w1)))
       = S (body_runs "/tmp/a.pdf" (trace w1))).
Proof.
  cbv zeta. split.
  - apply (proj1 (C4_memoized lib_ok None "/tmp/a.pdf" w_one_file)
             (router_of sample_nodes)).
    vm_compute. reflexivity.
  - apply (proj2 (C4_memoized lib_load_down None "/tmp/a.pdf" w_one_file)
             (LibraryError "cannot parse")).
    vm_compute. reflexivity.
Defined.

(** ** A run without an upload *)

(** C9: when no file is uploaded the run only displays: the title, the
    uploader widget, the prompt to upload a file and the sidebar.  It
    writes no temporary file, builds no index, asks no question and
    deletes nothing: disk, cache and settings are untouched and the log
    holds no call into the library. *)
Theorem C9_no_upload lib inp w :
  uploaded_file inp = None →
  script lib inp w =
    (Ok tt,
     {| fs := fs w; cache := cache w; settings := settings w;
        trace := trace w ++
          [ st_markdown title_html true;
            st_file_uploader "Choose a PDF file" "pdf";
            st_info "Please upload a PDF file to begin.";
            st_sidebar_title "About PDF Query App";
            st_sidebar_info about_text;
            st_sidebar_title "How to Use";
            st_sidebar_info howto_text ] |}).
Proof.
  intros H. unfold script, sidebar. rewrite H. unfold_prims.
  flatten_trace. reflexivity.
Qed.

Lemma C9_no_upload_witness :
  script lib_ok inp_no_file w_one_file =
    (Ok tt,
     {| fs := fs w_one_file; cache := cache w_one_file;
        settings := settings w_one_file;
        trace := trace w_one_file ++
          [ st_markdown title_html true;
            st_file_uploader "Choose a PDF file" "pdf";
            st_info "Please upload a PDF file to begin.";
            st_sidebar_title "About PDF Query App";
            st_sidebar_info about_text;
            st_sidebar_title "How to Use";
            st_sidebar_info howto_text ] |}).
Proof. apply (C9_no_upload lib_ok inp_no_file w_one_file). reflexivity. Defined.

(** ** A run with an upload *)

Lemma write_upload_spec lib f w0 :
  let path := (mkstemp_stem lib w0 ++ ".pdf")%string in
  write_upload lib f w0 =
    (Ok path,
     {| fs := <[path := getvalue f]> (fs w0);
        cache := cache w0; settings := settings w0;
        trace := trace w0 ++ [ tempfile_open path;
                               tempfile_write path (getvalue f);
                               tempfile_close path ] |}).
Proof.
  cbv zeta. unfold write_upload, NamedTemporaryFile, tmp_file_write.
  unfold_prims. flatten_trace.
  by rewrite lookup_insert_eq, insert_insert_eq.
Qed.

Lemma script_upload lib inp f w :
  uploaded_file inp = Some f →
  script lib inp w =
    ((query_engine_ <- load_and_process_data lib (OPENAI_API_KEY inp)
                                             (tmp_path lib w);;
      answer_and_cleanup lib inp (tmp_path lib w) query_engine_);;
     sidebar) (after_write lib f w).
Proof.
  intros H. unfold script, handle_upload, after_write, tmp_path. rewrite H.
  unfold bind at 1 2 3 4. unfold emit at 1 2. fold (after_header w).
  by rewrite write_upload_spec.
Qed.

(** C10: for every uploaded file, the temporary file is created under a
    name with the [.pdf] suffix, is still on disk when the [with] block
    is left ([delete=False]), holds exactly the bytes of the upload, and
    its name is the path the setup routine is called with. *)
Theorem C10_temp_file lib inp f w :
  uploaded_file inp = Some f →
  let w0 := after_header w in
  let path := (mkstemp_stem lib w0 ++ ".pdf")%string in
  let w1 := snd (write_upload lib f w0) in
  fst (write_upload lib f w0) = Ok path ∧
  events_of (write_upload lib f) w0 =
    [ tempfile_open path; tempfile_write path (getvalue f);
      tempfile_close path ] ∧
  fs w1 !! path = Some (getvalue f) ∧
  script lib inp w =
    ((query_engine_ <- load_and_process_data lib (OPENAI_API_KEY inp) path;;
      answer_and_cleanup lib inp path query_engine_);;
     sidebar) w1.
Proof.
  intros H. cbv zeta. split; [|split; [|split]].
  - by rewrite write_upload_spec.
  - apply events_of_app. by rewrite write_upload_spec.
  - rewrite write_upload_spec. simpl. apply lookup_insert_eq.
  - by apply script_upload.
Qed.

Lemma C10_temp_file_witness :
  let w0 := after_header initial in
  let path := "/tmp/tmpk3v9x0qa.pdf" in
  let w1 := snd (write_upload lib_ok sample_upload w0) in
  fst (write_upload lib_ok sample_upload w0) = Ok path ∧
  events_of (write_upload lib_ok sample_upload) w0 =
    [ tempfile_open path; tempfile_write path pdf_bytes; tempfile_close path ] ∧
  fs w1 !! path = Some pdf_bytes ∧
  script lib_ok inp_click initial =
    ((query_engine_ <- load_and_process_data lib_ok (Some "sk-test") path;;
      answer_and_cleanup lib_ok inp_click path query_engine_);;
     sidebar) w1.
Proof.
  apply (C10_temp_file lib_ok inp_click sample_upload initial). reflexivity.
Defined.

Lemma after_write_spec lib f w :
  after_write lib f w =
    {| fs := <[tmp_path lib w := getvalue f]> (fs w);
       cache := cache w; settings := settings w;
       trace := trace w ++
         [ st_markdown title_html true;
           st_file_uploader "Choose a PDF file" "pdf";
           tempfile_open (tmp_path lib w);
           tempfile_write (tmp_path lib w) (getvalue f);
           tempfile_close (tmp_path lib w) ] |}.
Proof.
  unfold after_write, tmp_path. rewrite write_upload_spec.
  unfold after_header. flatten_trace. reflexivity.
Qed.

(** The cached routine leaves the disk alone and logs setup events only. *)
Lemma setup_frame lib key file_path w :
  ∃ evs,
    trace (snd (load_and_process_data lib key file_path w)) = trace w ++ evs ∧
    fs (snd (load_and_process_data lib key file_path w)) = fs w ∧
    Forall setup_event evs.
Proof.
  unfold load_and_process_data, st_cache_resource.
  destruct (cache w !! file_path) as [v|]; simpl.
  - exists []. by rewrite app_nil_r.
  - destruct (body_frame lib key file_path w) as (evs & Ht & Hfs & Hall).
    exists evs.
    destruct (load_and_process_data_body lib key file_path w) as [[v|e] w'];
      simpl in *; done.
Qed.

(** Every way lines 84 to 97 can go, with the file still on disk at the
    start. *)
Lemma answer_and_cleanup_spec lib inp path eng w data :
  fs w !! path = Some data →
  ∃ r w',
    answer_and_cleanup lib inp path eng w = (r, w') ∧
    if button_clicked inp then
      match lib_select lib (query_world w) (selector eng)
                       (metadata <$> query_engine_tools eng) (user_query_of inp) with
      | Raise e =>
          r = Raise e ∧ fs w' = fs w ∧
          trace w' = trace w ++ ui_events ++
            [ st_spinner_enter "Processing your query...";
              called (select_call eng (user_query_of inp)); raised e; st_spinner_exit ]
      | Ok i =>
          match query_engine_tools eng !! i with
          | None =>
              r = Raise IndexError ∧ fs w' = fs w ∧
              trace w' = trace w ++ ui_events ++
                [ st_spinner_enter "Processing your query...";
                  called (select_call eng (user_query_of inp)); raised IndexError;
                  st_spinner_exit ]
          | Some tool =>
              match lib_query lib (log (called (select_call eng (user_query_of inp))) (query_world w))
                              (query_engine tool) (user_query_of inp) with
              | Raise e =>
                  r = Raise e ∧ fs w' = fs w ∧
                  trace w' = trace w ++ ui_events ++
                    [ st_spinner_enter "Processing your query...";
                      called (select_call eng (user_query_of inp));
                      called (QueryEngine_query (query_engine tool) (user_query_of inp));
                      raised e; st_spinner_exit ]
              | Ok response =>
                  r = Ok tt ∧ fs w' = delete path (fs w) ∧
                  trace w' = trace w ++ ui_events ++
                    [ st_spinner_enter "Processing your query...";
                      called (select_call eng (user_query_of inp));
                      called (QueryEngine_query (query_engine tool) (user_query_of inp));
                      st_write "Response:";
                      st_markdown (answer_html response) true;
                      st_spinner_exit;
                      os_unlink path ]
              end
          end
      end
    else
      r = Ok tt ∧ fs w' = delete path (fs w) ∧
      trace w' = trace w ++ ui_events ++ [os_unlink path].
Proof.
  intros Hfile.
  unfold answer_and_cleanup, RouterQueryEngine_query, unlink, query_world,
    select_call, user_query_of, ui_events.
  unfold_prims.
  destruct (button_clicked inp); cbv beta iota.
  - destruct (lib_select _ _ _ _ _) as [i|e]; cbv beta iota;
      [|eexists _, _; split; [reflexivity|]; by world].
    destruct (query_engine_tools eng !! i) as [tool|]; cbv beta iota;
      [|eexists _, _; split; [reflexivity|]; by world].
    destruct (lib_query _ _ _ _) as [resp|e]; cbv beta iota;
      [|eexists _, _; split; [reflexivity|]; by world].
    rewrite !fs_log, Hfile.
    eexists _, _. split; [reflexivity|]. by world.
  - rewrite !fs_log, Hfile.
    eexists _, _. split; [reflexivity|]. by world.
Qed.

(** A run with an upload is the setup, then lines 84 to 97, then the
    sidebar; an exception in one of them ends the run. *)
Lemma script_upload_spec lib inp f w :
  uploaded_file inp = Some f →
  match load_and_process_data lib (OPENAI_API_KEY inp) (tmp_path lib w)
                              (after_write lib f w) with
  | (Raise e, w2) => script lib inp w = (Raise e, w2)
  | (Ok eng, w2) =>
      match answer_and_cleanup lib inp (tmp_path lib w) eng w2 with
      | (Raise e, w3) => script lib inp w = (Raise e, w3)
      | (Ok _, w3) =>
          script lib inp w =
            (Ok tt,
             {| fs := fs w3; cache := cache w3; settings := settings w3;
                trace := trace w3 ++ sidebar_events |})
      end
  end.
Proof.
  intros H. rewrite (script_upload _ _ _ _ H).
  destruct (load_and_process_data _ _ _ _) as [[eng|e] w2] eqn:Hsetup.
  - destruct (answer_and_cleanup _ _ _ _ _) as [[[]|e] w3] eqn:Ha.
    + erewrite bind_returns;
        [apply sidebar_spec|by erewrite bind_returns by exact Hsetup].
    + apply bind_raises. by erewrite bind_returns by exact Hsetup.
  - apply bind_raises. by apply bind_raises.
Qed.

Lemma setup_event_not_unlink evs p :
  Forall setup_event evs → os_unlink p ∉ evs.
Proof.
  rewrite Forall_forall. intros Hall Hin. exact (Hall _ Hin).
Qed.

(** The file written for the run is on disk when the setup returns. *)
Lemma setup_keeps_file lib inp f w :
  fs (snd (load_and_process_data lib (OPENAI_API_KEY inp) (tmp_path lib w)
             (after_write lib f w))) !! tmp_path lib w = Some (getvalue f).
Proof.
  destruct (setup_frame lib (OPENAI_API_KEY inp) (tmp_path lib w)
              (after_write lib f w)) as (evs & _ & -> & _).
  rewrite after_write_spec. simpl. apply lookup_insert_eq.
Qed.

(** A run with an upload that ends in an exception has not unlinked
    anything, and the temporary file it wrote is still on disk. *)
Lemma raising_run_keeps_file lib inp f w e :
  uploaded_file inp = Some f →
  fst (script lib inp w) = Raise e →
  fs (snd (script lib inp w)) !! tmp_path lib w = Some (getvalue f) ∧
  ∀ p, os_unlink p ∉ events_of (script lib inp) w.
Proof.
  intros Hup Hraise.
  pose proof (script_upload_spec lib inp f w Hup) as Hs.
  pose proof (setup_keeps_file lib inp f w) as Hfile.
  destruct (setup_frame lib (OPENAI_API_KEY inp) (tmp_path lib w)
              (after_write lib f w)) as (sevs & Ht & _ & Hall).
  rewrite after_write_spec in Ht at 2. cbn [trace] in Ht.
  destruct (load_and_process_data _ _ _ _) as [[eng|e1] w2];
    cbn [fst snd] in *.
  - destruct (answer_and_cleanup_spec lib inp (tmp_path lib w) eng w2 _ Hfile)
      as (r & w3 & Heq & Ha).
    rewrite Heq in Hs. destruct r as [[]|e2].
    { rewrite Hs in Hraise. discriminate. }
    assert (fs w3 = fs w2 ∧ ∃ aevs, trace w3 = trace w2 ++ ui_events ++ aevs ∧
              ∀ p, os_unlink p ∉ aevs) as (Hfs & aevs & Ht3 & Hno).
    { destruct (button_clicked inp); [|by destruct Ha].
      repeat case_match; destruct Ha as (? & ? & ?); simplify_eq;
        (split; [done|]); eexists; (split; [eassumption|]);
        intros p Hp; set_solver. }
    rewrite Hs. cbn [fst snd]. split; [by rewrite Hfs|].
    intros p. erewrite events_of_app;
      [|rewrite Hs; cbn [snd]; rewrite Ht3, Ht, <- !app_assoc; reflexivity].
    rewrite !elem_of_app. intros [Hp|[Hp|[Hp|Hp]]].
    + set_solver.
    + by eapply setup_event_not_unlink.
    + unfold ui_events in Hp. set_solver.
    + by eapply Hno.
  - rewrite Hs. cbn [fst snd]. split; [done|].
    intros p. erewrite events_of_app;
      [|rewrite Hs; cbn [snd]; rewrite Ht, <- app_assoc; reflexivity].
    rewrite elem_of_app. intros [Hp|Hp].
    + set_solver.
    + by eapply setup_event_not_unlink.
Qed.

(** [script] is [script_with] at the rendering of lines 89 to 94, which
    only displays. *)
Lemma script_with_render_answer lib inp :
  script_with render_answer lib inp = script lib inp.
Proof. reflexivity. Qed.

Lemma framed_raise (Q : Event → Prop) {A} e : Q (raised e) → framed Q (@raise A e).
Proof. intros He w. exists [raised e]. by repeat constructor. Qed.

Lemma render_answer_display_only : display_only render_answer.
Proof.
  intros response. unfold render_answer.
  apply framed_bind; [|intros _]; by apply framed_emit.
Qed.

Lemma render_markdown_fails_display_only : display_only render_markdown_fails.
Proof.
  intros response. unfold render_markdown_fails.
  apply framed_bind; [by apply framed_emit|]. intros _. by apply framed_raise.
Qed.

Lemma query_framed lib eng q :
  framed not_unlink (RouterQueryEngine_query lib eng q).
Proof.
  unfold RouterQueryEngine_query.
  apply framed_bind; [by apply framed_call|]. intros i.
  destruct (query_engine_tools eng !! i);
    [by apply framed_call|by apply framed_raise].
Qed.

Lemma write_upload_eq lib f w :
  write_upload lib f (after_header w) = (Ok (tmp_path lib w), after_write lib f w).
Proof.
  unfold after_write, tmp_path. by rewrite write_upload_spec.
Qed.

(** C8: on a run where a file was uploaded, the setup returned and the
    button was clicked, when the query call raises, or the query returns
    and the rendering of the answer raises, the run ends with that
    exception before [os.unlink] is reached: nothing is unlinked and the
    temporary file written for the run stays on disk with the uploaded
    bytes.  The rendering is any computation that only displays; the
    script's own is [render_answer], at which [script_with] is
    [script]. *)
Theorem C8_temp_file_leak render lib inp f w eng w2 e :
  display_only render →
  uploaded_file inp = Some f →
  button_clicked inp = true →
  load_and_process_data lib (OPENAI_API_KEY inp) (tmp_path lib w)
                        (after_write lib f w) = (Ok eng, w2) →
  (fst (RouterQueryEngine_query lib eng (user_query_of inp) (query_world w2))
     = Raise e ∨
   ∃ response wq,
     RouterQueryEngine_query lib eng (user_query_of inp) (query_world w2)
       = (Ok response, wq) ∧
     fst (render response wq) = Raise e) →
  fst (script_with render lib inp w) = Raise e ∧
  fs (snd (script_with render lib inp w)) !! tmp_path lib w
    = Some (getvalue f) ∧
  (∀ p, os_unlink p ∉ events_of (script_with render lib inp) w) ∧
  script_with render_answer lib inp = script lib inp.
Proof.
  intros Hdisp Hup Hclick Hsetup Hfail.
  cut (fst (script_with render lib inp w) = Raise e ∧
       fs (snd (script_with render lib inp w)) !! tmp_path lib w
         = Some (getvalue f) ∧
       ∀ p, os_unlink p ∉ events_of (script_with render lib inp) w).
  { intros (H1 & H2 & H3). by repeat split. }
  assert (∃ wx evs,
            (response <-
               RouterQueryEngine_query lib eng (user_query_of inp);;
             render response) (query_world w2) = (Raise e, wx) ∧
            fs wx = fs (query_world w2) ∧
            trace wx = trace (query_world w2) ++ evs ∧
            Forall not_unlink evs) as (wx & evs & Hbody & Hfs & Ht & Hall).
  { destruct (query_framed lib eng (user_query_of inp) (query_world w2))
      as (qevs & Hqt & Hqf & Hqall).
    destruct Hfail as [Hq|(response & wq & Hq & Hr)].
    - destruct (RouterQueryEngine_query _ _ _ _) as [r wq] eqn:Heq.
      cbn [fst snd] in *. subst r. exists wq, qevs.
      split; [by apply bind_raises|]. done.
    - rewrite Hq in Hqt, Hqf. cbn [snd] in Hqt, Hqf.
      destruct (Hdisp response wq) as (revs & Hrt & Hrf & Hrall).
      destruct (render response wq) as [r wr] eqn:Hren.
      cbn [fst snd] in *. subst r. exists wr, (qevs ++ revs).
      split; [by erewrite bind_returns by exact Hq|].
      split; [by rewrite Hrf, Hqf|].
      split; [by rewrite Hrt, Hqt, app_assoc|by apply Forall_app]. }
  assert (script_with render lib inp w = (Raise e, log st_spinner_exit wx))
    as Hs.
  { unfold script_with.
    erewrite bind_returns by reflexivity.
    erewrite bind_returns by reflexivity.
    apply bind_raises. rewrite Hup. unfold handle_upload_with.
    erewrite bind_returns by apply write_upload_eq.
    erewrite bind_returns by exact Hsetup.
    unfold answer_and_cleanup_with.
    erewrite bind_returns by reflexivity.
    erewrite bind_returns by reflexivity.
    apply bind_raises. rewrite Hclick.
    unfold spinner, with_, emit. cbv beta iota.
    unfold query_world, user_query_of in Hbody. by rewrite Hbody. }
  pose proof (setup_keeps_file lib inp f w) as Hfile.
  destruct (setup_frame lib (OPENAI_API_KEY inp) (tmp_path lib w)
              (after_write lib f w)) as (sevs & Hst & _ & Hsall).
  rewrite after_write_spec in Hst at 2. cbn [trace] in Hst.
  rewrite Hsetup in Hfile, Hst. cbn [snd] in Hfile, Hst.
  rewrite Hs. cbn [fst snd]. split; [done|]. split.
  - rewrite fs_log, Hfs. unfold query_world. by rewrite !fs_log.
  - intros p.
    erewrite events_of_app;
      [|rewrite Hs; cbn [snd]; rewrite trace_log, Ht; unfold query_world;
        rewrite !trace_log, Hst, <- !app_assoc; reflexivity].
    rewrite Forall_forall in Hall. rewrite Forall_forall in Hsall.
    rewrite !elem_of_app. intros [Hin|[Hin|Hin]].
    + set_solver.
    + exact (Hsall _ Hin).
    + repeat match type of Hin with
             | _ ∨ _ => destruct Hin as [Hin|Hin]
             end;
        first [exact (Hall _ Hin)|set_solver].
Qed.

Lemma C8_temp_file_leak_witness :
  (fst (script_with render_answer lib_query_down inp_click initial)
     = Raise (LibraryError "APIConnectionError") ∧
   fs (snd (script_with render_answer lib_query_down inp_click initial))
     !! tmp_path lib_query_down initial = Some pdf_bytes ∧
   (∀ p, os_unlink p
           ∉ events_of (script_with render_answer lib_query_down inp_click)
                       initial) ∧
   script_with render_answer lib_query_down inp_click
     = script lib_query_down inp_click) ∧
  (fst (script_with render_markdown_fails lib_ok inp_click initial)
     = Raise (LibraryError "StreamlitAPIException") ∧
   fs (snd (script_with render_markdown_fails lib_ok inp_click initial))
     !! tmp_path lib_ok initial = Some pdf_bytes ∧
   (∀ p, os_unlink p
           ∉ events_of (script_with render_markdown_fails lib_ok inp_click)
                       initial) ∧
   script_with render_answer lib_ok inp_click = script lib_ok inp_click).
Proof.
  split.
  - apply (C8_temp_file_leak render_answer lib_query_down inp_click
             sample_upload initial (router_of sample_nodes)
             (snd (load_and_process_data lib_query_down (Some "sk-test"%string)
                     (tmp_path lib_query_down initial)
                     (after_write lib_query_down sample_upload initial))));
      [exact render_answer_display_only|reflexivity|reflexivity
      |vm_compute; reflexivity|left; vm_compute; reflexivity].
  - apply (C8_temp_file_leak render_markdown_fails lib_ok inp_click
             sample_upload initial (router_of sample_nodes)
             (snd (load_and_process_data lib_ok (Some "sk-test"%string)
                     (tmp_path lib_ok initial)
                     (after_write lib_ok sample_upload initial))));
      [exact render_markdown_fails_display_only|reflexivity|reflexivity
      |vm_compute; reflexivity|].
    right. eexists _, _. split; vm_compute; reflexivity.
Defined.

(** C2, as stated, fails: with a file uploaded but the button not
    clicked the question is not forwarded and nothing is rendered, yet
    the temporary file is written, handed to the setup and deleted. *)
Lemma C2_counterexample :
  uploaded_file inp_no_click = Some sample_upload ∧
  fst (script lib_ok inp_no_click initial) = Ok tt ∧
  events_of (script lib_ok inp_no_click) initial =
    [ st_markdown title_html true;
      st_file_uploader "Choose a PDF file" "pdf";
      tempfile_open "/tmp/tmpk3v9x0qa.pdf";
      tempfile_write "/tmp/tmpk3v9x0qa.pdf" pdf_bytes;
      tempfile_close "/tmp/tmpk3v9x0qa.pdf" ]
    ++ body_events (Some "sk-test"%string) "/tmp/tmpk3v9x0qa.pdf"
         sample_documents sample_nodes
    ++ [ st_text_input "Enter your question about the uploaded PDF:"
                       "What is this document about?";
         st_button "Submit Query";
         os_unlink "/tmp/tmpk3v9x0qa.pdf" ]
    ++ sidebar_events.
Proof. repeat split; vm_compute; reflexivity. Qed.

(** C2 (amended): on every run in which a file is uploaded and which
    completes, the steps happen in this order: the upload's bytes are
    written to the temporary path; the cached setup routine is called
    with that path and returns the router; then, only when the Submit
    button was clicked, the question is forwarded to the router and the
    answer is rendered; last, the temporary file is deleted.  On a run
    that ends in an exception nothing is deleted.  So a deletion never
    precedes the rendering. *)
Theorem C2_pipeline_order lib inp f w :
  uploaded_file inp = Some f →
  let path := tmp_path lib w in
  let q := user_query_of inp in
  let setup := load_and_process_data lib (OPENAI_API_KEY inp) path in
  (fst (script lib inp w) = Ok tt →
   ∃ eng w2 answer_evs,
     setup (after_write lib f w) = (Ok eng, w2) ∧
     (if button_clicked inp then
        ∃ tool response,
          tool ∈ query_engine_tools eng ∧
          answer_evs =
            [ st_spinner_enter "Processing your query...";
              called (select_call eng q);
              called (QueryEngine_query (query_engine tool) q);
              st_write "Response:";
              st_markdown (answer_html response) true;
              st_spinner_exit ]
      else answer_evs = []) ∧
     events_of (script lib inp) w =
       [ st_markdown title_html true;
         st_file_uploader "Choose a PDF file" "pdf";
         tempfile_open path;
         tempfile_write path (getvalue f);
         tempfile_close path ]
       ++ events_of setup (after_write lib f w)
       ++ ui_events ++ answer_evs ++ [os_unlink path] ++ sidebar_events) ∧
  (∀ e, fst (script lib inp w) = Raise e →
        ∀ p, os_unlink p ∉ events_of (script lib inp) w).
Proof.
  intros Hup. cbv zeta. split.
  - intros Hok.
    pose proof (script_upload_spec lib inp f w Hup) as Hs.
    pose proof (setup_keeps_file lib inp f w) as Hfile.
    destruct (setup_frame lib (OPENAI_API_KEY inp) (tmp_path lib w)
                (after_write lib f w)) as (sevs & Ht & _ & _).
    rewrite (events_of_app _ _ _ Ht).
    rewrite after_write_spec in Ht at 2. cbn [trace] in Ht.
    destruct (load_and_process_data _ _ _ _) as [[eng|e1] w2];
      cbn [fst snd] in *; [|rewrite Hs in Hok; discriminate].
    destruct (answer_and_cleanup_spec lib inp (tmp_path lib w) eng w2 _ Hfile)
      as (r & w3 & Heq & Ha).
    rewrite Heq in Hs.
    destruct r as [[]|e2]; [|rewrite Hs in Hok; discriminate].
    exists eng, w2.
    destruct (button_clicked inp).
    + destruct (lib_select _ _ _ _ _) as [i|e]; [|by destruct Ha].
      destruct (query_engine_tools eng !! i) as [tool|] eqn:Htool;
        [|by destruct Ha].
      destruct (lib_query _ _ _ _) as [resp|e]; [|by destruct Ha].
      destruct Ha as (_ & _ & Ht3).
      exists [ st_spinner_enter "Processing your query...";
               called (select_call eng (user_query_of inp));
               called (QueryEngine_query (query_engine tool) (user_query_of inp));
               st_write "Response:";
               st_markdown (answer_html resp) true;
               st_spinner_exit ].
      split; [done|]. split.
      * exists tool, resp. split; [|reflexivity].
        by eapply list_elem_of_lookup_2.
      * apply events_of_app. rewrite Hs. cbn [snd trace].
        rewrite Ht3, Ht, <- !app_assoc. reflexivity.
    + destruct Ha as (_ & _ & Ht3).
      exists []. split; [done|]. split; [done|].
      apply events_of_app. rewrite Hs. cbn [snd trace].
      rewrite Ht3, Ht, <- !app_assoc. reflexivity.
  - intros e Hraise. by apply (raising_run_keeps_file lib inp f w e).
Qed.

Lemma C2_pipeline_order_witness :
  ∃ eng w2 answer_evs,
    load_and_process_data lib_ok (Some "sk-test"%string) (tmp_path lib_ok initial)
      (after_write lib_ok sample_upload initial) = (Ok eng, w2) ∧
    (∃ tool response,
        tool ∈ query_engine_tools eng ∧
        answer_evs =
          [ st_spinner_enter "Processing your query...";
            called (select_call eng "What is this document about?");
            called (QueryEngine_query (query_engine tool)
                      "What is this document about?");
            st_write "Response:";
            st_markdown (answer_html response) true;
            st_spinner_exit ]) ∧
    events_of (script lib_ok inp_click) initial =
      [ st_markdown title_html true;
        st_file_uploader "Choose a PDF file" "pdf";
        tempfile_open (tmp_path lib_ok initial);
        tempfile_write (tmp_path lib_ok initial) pdf_bytes;
        tempfile_close (tmp_path lib_ok initial) ]
      ++ events_of (load_and_process_data lib_ok (Some "sk-test"%string)
                      (tmp_path lib_ok initial))
           (after_write lib_ok sample_upload initial)
      ++ ui_events ++ answer_evs ++ [os_unlink (tmp_path lib_ok initial)]
      ++ sidebar_events.
Proof.
  apply (proj1 (C2_pipeline_order lib_ok inp_click sample_upload initial eq_refl)).
  reflexivity.
Defined.

(** ** Routing of a submitted question *)

Lemma selector_calls_app evs1 evs2 :
  selector_calls (evs1 ++ evs2) = selector_calls evs1 ++ selector_calls evs2.
Proof. apply filter_app. Qed.

Lemma engine_queries_app evs1 evs2 :
  engine_queries (evs1 ++ evs2) = engine_queries evs1 ++ engine_queries evs2.
Proof. apply filter_app. Qed.

Lemma setup_no_routing evs :
  Forall setup_event evs → selector_calls evs = [] ∧ engine_queries evs = [].
Proof.
  unfold selector_calls, engine_queries.
  induction 1 as [|ev evs Hev _ [IH1 IH2]]; [done|].
  rewrite !filter_cons, IH1, IH2.
  destruct ev as [| | | | | | | | | | | | | | | |c|]; try done.
  by destruct c.
Qed.

Lemma setup_returns_router lib key file_path w eng w' :
  cache_ok w →
  load_and_process_data lib key file_path w = (Ok eng, w') →
  ∃ nodes, eng = router_of nodes.
Proof.
  unfold load_and_process_data, st_cache_resource. intros Hok H.
  destruct (cache w !! file_path) as [v|] eqn:Hc.
  - simplify_eq. by eapply Hok.
  - destruct (load_and_process_data_body lib key file_path w)
      as [[v|e] w1] eqn:Hbody; simplify_eq.
    destruct (body_returns _ _ _ _ _ _ Hbody) as (_ & nodes & _ & _ & -> & _).
    by exists nodes.
Qed.

(** C1: on every run of the script, after any number of earlier runs, in
    which a question is submitted (a file is uploaded, the setup returns
    the router, the button is clicked): the router the question goes to
    has exactly two tools, the summary tool and the vector tool, and an
    [LLMSingleSelector]; the selector is called exactly once, with the
    two descriptions and the question; and the question is put to the
    query engine of the one tool the selector chose, and to no other
    (to none, when the selector raised or chose no tool). *)
Theorem C1_single_tool_answers lib inps inp f eng w2 :
  let w := reruns lib inps initial in
  let q := user_query_of inp in
  uploaded_file inp = Some f →
  button_clicked inp = true →
  load_and_process_data lib (OPENAI_API_KEY inp) (tmp_path lib w)
                        (after_write lib f w) = (Ok eng, w2) →
  ∃ nodes,
    query_engine_tools eng = [summary_tool_of nodes; vector_tool_of nodes] ∧
    selector eng = LLMSingleSelector_from_defaults ∧
    selector_calls (events_of (script lib inp) w) =
      [ called (LLMSingleSelector_select LLMSingleSelector_from_defaults
                  [ {| description := summary_description; name := None |};
                    {| description := vector_description; name := None |} ]
                  q) ] ∧
    engine_queries (events_of (script lib inp) w) =
      match lib_select lib (query_world w2) LLMSingleSelector_from_defaults
              [ {| description := summary_description; name := None |};
                {| description := vector_description; name := None |} ] q with
      | Ok i =>
          match [summary_tool_of nodes; vector_tool_of nodes] !! i with
          | Some tool => [called (QueryEngine_query (query_engine tool) q)]
          | None => []
          end
      | Raise _ => []
      end.
Proof.
  cbv zeta. intros Hup Hclick Hsetup.
  set (w := reruns lib inps initial) in *.
  assert (cache_ok (after_write lib f w)) as Hcache.
  { rewrite after_write_spec. intros arg v. cbn [cache].
    apply (cache_ok_reruns lib inps). }
  destruct (setup_returns_router _ _ _ _ _ _ Hcache Hsetup) as [nodes ->].
  exists nodes. split; [done|]. split; [done|].
  pose proof (script_upload_spec lib inp f w Hup) as Hs.
  pose proof (setup_keeps_file lib inp f w) as Hfile.
  destruct (setup_frame lib (OPENAI_API_KEY inp) (tmp_path lib w)
              (after_write lib f w)) as (sevs & Ht & _ & Hall).
  rewrite after_write_spec in Ht at 2. cbn [trace] in Ht.
  rewrite Hsetup in Hs, Hfile, Ht. cbn [snd] in Hfile, Ht.
  destruct (setup_no_routing _ Hall) as [Hsel Hq].
  destruct (answer_and_cleanup_spec lib inp (tmp_path lib w)
              (router_of nodes) w2 _ Hfile) as (r & w3 & Heq & Ha).
  rewrite Heq in Hs. rewrite Hclick in Ha. unfold select_call in Ha.
  simpl in Ha.
  assert (∃ aevs,
    trace (snd (script lib inp w)) =
      trace w ++
        [ st_markdown title_html true;
          st_file_uploader "Choose a PDF file" "pdf";
          tempfile_open (tmp_path lib w);
          tempfile_write (tmp_path lib w) (getvalue f);
          tempfile_close (tmp_path lib w) ] ++ sevs ++ ui_events ++ aevs ∧
    selector_calls aevs =
      [ called (LLMSingleSelector_select LLMSingleSelector_from_defaults
                  [ {| description := summary_description; name := None |};
                    {| description := vector_description; name := None |} ]
                  (user_query_of inp)) ] ∧
    engine_queries aevs =
      match lib_select lib (query_world w2) LLMSingleSelector_from_defaults
              [ {| description := summary_description; name := None |};
                {| description := vector_description; name := None |} ]
              (user_query_of inp) with
      | Ok i =>
          match [summary_tool_of nodes; vector_tool_of nodes] !! i with
          | Some tool =>
              [called (QueryEngine_query (query_engine tool) (user_query_of inp))]
          | None => []
          end
      | Raise _ => []
      end) as (aevs & Htr & Hsel' & Hq').
  { destruct (lib_select _ _ _ _ _) as [i|e];
      [destruct (_ !! i) as [tool|];
        [destruct (lib_query _ _ _ _) as [resp|e]|]|];
      destruct Ha as (-> & _ & Ht3); cbv beta iota in Hs;
      rewrite Hs; cbn [snd trace]; rewrite Ht3, Ht, <- !app_assoc;
      (eexists; split; [reflexivity|]); split; reflexivity. }
  rewrite (events_of_app _ _ _ Htr).
  rewrite !selector_calls_app, !engine_queries_app, Hsel, Hq, Hsel', Hq'.
  split; reflexivity.
Qed.

Lemma C1_single_tool_answers_witness :
  ∃ nodes,
    query_engine_tools (router_of sample_nodes) =
      [summary_tool_of nodes; vector_tool_of nodes] ∧
    selector (router_of sample_nodes) = LLMSingleSelector_from_defaults ∧
    selector_calls
      (events_of (script lib_ok inp_click) (reruns lib_ok [inp_click] initial)) =
      [ called (LLMSingleSelector_select LLMSingleSelector_from_defaults
                  [ {| description := summary_description; name := None |};
                    {| description := vector_description; name := None |} ]
                  (user_query_of inp_click)) ] ∧
    engine_queries
      (events_of (script lib_ok inp_click) (reruns lib_ok [inp_click] initial)) =
      match lib_select lib_ok
              (query_world
                 (snd (load_and_process_data lib_ok (Some "sk-test"%string)
                         (tmp_path lib_ok (reruns lib_ok [inp_click] initial))
                         (after_write lib_ok sample_upload
                            (reruns lib_ok [inp_click] initial)))))
              LLMSingleSelector_from_defaults
              [ {| description := summary_description; name := None |};
                {| description := vector_description; name := None |} ]
              (user_query_of inp_click) with
      | Ok i =>
          match [summary_tool_of nodes; vector_tool_of nodes] !! i with
          | Some tool =>
              [called (QueryEngine_query (query_engine tool)
                         (user_query_of inp_click))]
          | None => []
          end
      | Raise _ => []
      end.
Proof.
  apply (C1_single_tool_answers lib_ok [inp_click] inp_click sample_upload
           (router_of sample_nodes)
           (snd (load_and_process_data lib_ok (Some "sk-test"%string)
                   (tmp_path lib_ok (reruns lib_ok [inp_click] initial))
                   (after_write lib_ok sample_upload
                      (reruns lib_ok [inp_click] initial)))));
    vm_compute; reflexivity.
Defined.

(** * Further properties of the script *)

(** ** The shape of a run *)

Lemma script_no_upload lib inp w :
  uploaded_file inp = None →
  script lib inp w =
    (Ok tt,
     {| fs := fs w; cache := cache w; settings := settings w;
        trace := trace w ++
          [ st_markdown title_html true;
            st_file_uploader "Choose a PDF file" "pdf";
            st_info "Please upload a PDF file to begin." ] ++ sidebar_events |}).
Proof.
  intros H. unfold script. rewrite H.
  erewrite bind_returns by reflexivity.
  erewrite bind_returns by reflexivity.
  erewrite bind_returns by reflexivity.
  rewrite sidebar_spec. f_equal. world_eq.
Qed.

(** Lines 84 to 97 touch neither the cache nor [Settings]. *)
Lemma answer_and_cleanup_state lib inp path eng w :
  cache (snd (answer_and_cleanup lib inp path eng w)) = cache w ∧
  settings (snd (answer_and_cleanup lib inp path eng w)) = settings w.
Proof.
  by apply (inv_answer_and_cleanup
              (λ w', cache w' = cache w ∧ settings w' = settings w)).
Qed.

(** The body of the setup routine does not touch the cache. *)
Lemma body_cache lib key file_path w :
  cache (snd (load_and_process_data_body lib key file_path w)) = cache w.
Proof. by apply (inv_body (λ w', cache w' = cache w)). Qed.

Lemma setup_event_stage_not_sidebar ev :
  setup_event ev ∨ stage_event ev → is_sidebar ev = false.
Proof. intros [H|H]; by destruct ev. Qed.

(** The events of a run with an upload: the header, the events of the
    setup, then events of lines 84 to 97, and the sidebar when the run
    completes. *)
Lemma upload_run_shape lib inp f w :
  uploaded_file inp = Some f →
  ∃ tail,
    events_of (script lib inp) w =
      header_events lib f w
      ++ events_of (load_and_process_data lib (OPENAI_API_KEY inp)
                      (tmp_path lib w)) (after_write lib f w)
      ++ tail ∧
    match fst (script lib inp w) with
    | Ok _ => ∃ mid, tail = mid ++ sidebar_events ∧ Forall stage_event mid
    | Raise _ => Forall stage_event tail
    end.
Proof.
  intros Hup.
  pose proof (script_upload_spec lib inp f w Hup) as Hs.
  pose proof (setup_keeps_file lib inp f w) as Hfile.
  destruct (setup_frame lib (OPENAI_API_KEY inp) (tmp_path lib w)
              (after_write lib f w)) as (sevs & Ht & _ & _).
  rewrite (events_of_app _ _ _ Ht).
  rewrite after_write_spec in Ht at 2. cbn [trace] in Ht.
  unfold header_events.
  destruct (load_and_process_data _ _ _ _) as [[eng|e1] w2];
    cbn [fst snd] in *.
  - destruct (answer_and_cleanup_spec lib inp (tmp_path lib w) eng w2 _ Hfile)
      as (r & w3 & Heq & Ha).
    rewrite Heq in Hs.
    assert (∃ aevs, trace w3 = trace w2 ++ aevs ∧ Forall stage_event aevs)
      as (aevs & Ht3 & Hst).
    { unfold ui_events in Ha.
      destruct (button_clicked inp);
        [destruct (lib_select _ _ _ _ _) as [i|e];
          [destruct (_ !! i) as [tool|];
            [destruct (lib_query _ _ _ _) as [resp|e]|]|]|];
        destruct Ha as (_ & _ & ->); eexists; (split; [reflexivity|]);
        repeat constructor. }
    destruct r as [[]|e2]; rewrite Hs; cbn [fst].
    + exists (aevs ++ sidebar_events). split; [|by exists aevs].
      apply events_of_app. rewrite Hs. cbn [snd trace].
      rewrite Ht3, Ht, <- !app_assoc. reflexivity.
    + exists aevs. split; [|done].
      apply events_of_app. rewrite Hs. cbn [snd].
      rewrite Ht3, Ht, <- !app_assoc. reflexivity.
  - rewrite Hs. cbn [fst]. exists []. split; [|constructor].
    apply events_of_app. rewrite Hs. cbn [snd].
    rewrite Ht, <- !app_assoc, app_nil_r. reflexivity.
Qed.

(** The disk after a run with an upload. *)
Lemma upload_run_disk lib inp f w :
  uploaded_file inp = Some f →
  fs (snd (script lib inp w)) =
    match fst (script lib inp w) with
    | Ok _ => delete (tmp_path lib w) (fs w)
    | Raise _ => <[tmp_path lib w := getvalue f]> (fs w)
    end.
Proof.
  intros Hup.
  pose proof (script_upload_spec lib inp f w Hup) as Hs.
  pose proof (setup_keeps_file lib inp f w) as Hfile.
  destruct (setup_frame lib (OPENAI_API_KEY inp) (tmp_path lib w)
              (after_write lib f w)) as (sevs & _ & Hfs & _).
  rewrite after_write_spec in Hfs at 2. cbn [fs] in Hfs.
  destruct (load_and_process_data _ _ _ _) as [[eng|e1] w2];
    cbn [fst snd] in *; [|by rewrite Hs].
  destruct (answer_and_cleanup_spec lib inp (tmp_path lib w) eng w2 _ Hfile)
    as (r & w3 & Heq & Ha).
  rewrite Heq in Hs.
  assert (fs w3 = match r with
                  | Ok _ => delete (tmp_path lib w) (fs w)
                  | Raise _ => <[tmp_path lib w := getvalue f]> (fs w)
                  end) as Hfs3.
  { destruct (button_clicked inp);
      [destruct (lib_select _ _ _ _ _) as [i|e];
        [destruct (_ !! i) as [tool|];
          [destruct (lib_query _ _ _ _) as [resp|e]|]|]|];
      destruct Ha as (-> & -> & _); rewrite Hfs;
      by rewrite ?delete_insert_eq. }
  destruct r as [[]|e2]; rewrite Hs; cbn [fst snd fs]; exact Hfs3.
Qed.

(** Cache and [Settings] after a run with an upload are those the setup
    left. *)
Lemma upload_run_state lib inp f w :
  uploaded_file inp = Some f →
  let w2 := snd (load_and_process_data lib (OPENAI_API_KEY inp)
                   (tmp_path lib w) (after_write lib f w)) in
  cache (snd (script lib inp w)) = cache w2 ∧
  settings (snd (script lib inp w)) = settings w2.
Proof.
  intros Hup. cbv zeta.
  pose proof (script_upload_spec lib inp f w Hup) as Hs.
  destruct (load_and_process_data _ _ _ _) as [[eng|e1] w2];
    cbn [fst snd] in *; [|by rewrite Hs].
  pose proof (answer_and_cleanup_state lib inp (tmp_path lib w) eng w2)
    as [Hc Hse].
  destruct (answer_and_cleanup _ _ _ _ _) as [[[]|e2] w3];
    rewrite Hs; cbn [fst snd cache settings] in *; done.
Qed.

(** ** The disk *)

Lemma script_disk_frame lib inp w p :
  p ≠ tmp_path lib w →
  fs (snd (script lib inp w)) !! p = fs w !! p.
Proof.
  intros Hp. destruct (uploaded_file inp) as [f|] eqn:Hup.
  - rewrite (upload_run_disk _ _ _ _ Hup). destruct (fst _).
    + by rewrite lookup_delete_ne.
    + by rewrite lookup_insert_ne.
  - by rewrite (script_no_upload _ _ _ Hup).
Qed.

(** X1: a run of the script changes no file other than its own temporary
    file: every other path holds after the run what it held before,
    whether or not a file was uploaded and however the run ends. *)
Theorem script_touches_only_temp_file lib inp w p :
  p ≠ tmp_path lib w →
  fs (snd (script lib inp w)) !! p = fs w !! p.
Proof. apply script_disk_frame. Qed.

Lemma script_touches_only_temp_file_witness :
  fs (snd (script lib_query_down inp_click w_one_file)) !! "/tmp/a.pdf"
    = fs w_one_file !! "/tmp/a.pdf".
Proof.
  apply (script_touches_only_temp_file lib_query_down inp_click w_one_file).
  vm_compute. discriminate.
Defined.

(** X2: a run with an upload that completes leaves no temporary file
    behind: the disk is the one before the run with the temporary path
    removed, so when that path was unused before the run the disk is
    exactly as it was. *)
Theorem completed_run_restores_disk lib inp f w :
  uploaded_file inp = Some f →
  fst (script lib inp w) = Ok tt →
  fs (snd (script lib inp w)) = delete (tmp_path lib w) (fs w) ∧
  (fs w !! tmp_path lib w = None → fs (snd (script lib inp w)) = fs w).
Proof.
  intros Hup Hok. rewrite (upload_run_disk _ _ _ _ Hup), Hok.
  split; [done|]. apply delete_id.
Qed.

Lemma completed_run_restores_disk_witness :
  fs (snd (script lib_ok inp_click w_one_file))
    = delete (tmp_path lib_ok w_one_file) (fs w_one_file) ∧
  (fs w_one_file !! tmp_path lib_ok w_one_file = None →
   fs (snd (script lib_ok inp_click w_one_file)) = fs w_one_file).
Proof.
  apply (completed_run_restores_disk lib_ok inp_click sample_upload w_one_file);
    reflexivity.
Defined.

(** ** A setup that fails *)

(** X3: when the setup routine raises on a run with an upload, the run
    ends there with that exception: the question box and the button are
    never rendered, the temporary file stays on disk with the uploaded
    bytes, and nothing is added to the cache. *)
Theorem setup_failure_ends_run lib inp f w e w2 :
  uploaded_file inp = Some f →
  load_and_process_data lib (OPENAI_API_KEY inp) (tmp_path lib w)
                        (after_write lib f w) = (Raise e, w2) →
  script lib inp w = (Raise e, w2) ∧
  fs w2 = <[tmp_path lib w := getvalue f]> (fs w) ∧
  cache w2 = cache w ∧
  events_of (script lib inp) w =
    header_events lib f w
    ++ events_of (load_and_process_data lib (OPENAI_API_KEY inp)
                    (tmp_path lib w)) (after_write lib f w) ∧
  (∀ label value, st_text_input label value ∉ events_of (script lib inp) w) ∧
  (∀ label, st_button label ∉ events_of (script lib inp) w).
Proof.
  intros Hup Hsetup.
  pose proof (script_upload_spec lib inp f w Hup) as Hs.
  pose proof (upload_run_disk lib inp f w Hup) as Hdisk.
  destruct (setup_frame lib (OPENAI_API_KEY inp) (tmp_path lib w)
              (after_write lib f w)) as (sevs & Ht & _ & Hall).
  rewrite (events_of_app _ _ _ Ht).
  rewrite after_write_spec in Ht at 2. cbn [trace] in Ht.
  rewrite Hsetup in Hs, Ht. cbn [snd] in Ht.
  rewrite Hs in Hdisk. cbn [fst snd] in Hdisk.
  assert (events_of (script lib inp) w = header_events lib f w ++ sevs) as Hev.
  { apply events_of_app. rewrite Hs. cbn [snd].
    rewrite Ht, <- app_assoc. reflexivity. }
  split; [done|]. split; [done|]. split; [|split; [done|]].
  - unfold load_and_process_data, st_cache_resource in Hsetup.
    destruct (cache (after_write lib f w) !! tmp_path lib w); [done|].
    pose proof (body_cache lib (OPENAI_API_KEY inp) (tmp_path lib w)
                  (after_write lib f w)) as Hc.
    destruct (load_and_process_data_body _ _ _ _) as [[v|e'] w']; [done|].
    injection Hsetup as <- <-. cbn [snd] in Hc.
    rewrite Hc, after_write_spec. reflexivity.
  - rewrite Hev. rewrite Forall_forall in Hall.
    split; intros; rewrite elem_of_app; intros [Hin|Hin];
      solve [ unfold header_events in Hin; set_solver
            | exact (Hall _ Hin) ].
Qed.

Lemma setup_failure_ends_run_witness :
  ∃ w2,
    script lib_index_down inp_click initial
      = (Raise (LibraryError "APIConnectionError"), w2) ∧
    fs w2 = <[tmp_path lib_index_down initial := pdf_bytes]> (fs initial) ∧
    cache w2 = cache initial ∧
    events_of (script lib_index_down inp_click) initial =
      header_events lib_index_down sample_upload initial
      ++ events_of (load_and_process_data lib_index_down (Some "sk-test"%string)
                      (tmp_path lib_index_down initial))
           (after_write lib_index_down sample_upload initial) ∧
    (∀ label value,
       st_text_input label value
         ∉ events_of (script lib_index_down inp_click) initial) ∧
    (∀ label,
       st_button label ∉ events_of (script lib_index_down inp_click) initial).
Proof.
  eexists.
  apply (setup_failure_ends_run lib_index_down inp_click sample_upload initial);
    vm_compute; reflexivity.
Defined.

(** ** Title and sidebar *)

(** X4: every run first renders the title and the file uploader.  The
    sidebar is rendered last, and only on a run that completes: a run
    that ends in an exception renders no sidebar at all. *)
Theorem title_first_sidebar_last lib inp w :
  ∃ rest,
    events_of (script lib inp) w =
      [ st_markdown title_html true;
        st_file_uploader "Choose a PDF file" "pdf" ] ++ rest ∧
    match fst (script lib inp w) with
    | Ok _ =>
        ∃ mid, rest = mid ++ sidebar_events ∧
               Forall (λ ev, is_sidebar ev = false) mid
    | Raise _ => Forall (λ ev, is_sidebar ev = false) rest
    end.
Proof.
  destruct (uploaded_file inp) as [f|] eqn:Hup.
  - destruct (upload_run_shape lib inp f w Hup) as (tail & Hev & Htail).
    destruct (setup_frame lib (OPENAI_API_KEY inp) (tmp_path lib w)
                (after_write lib f w)) as (sevs & Ht & _ & Hall).
    rewrite (events_of_app _ _ _ Ht) in Hev.
    assert (Forall (λ ev, is_sidebar ev = false) sevs) as Hsevs.
    { eapply Forall_impl; [exact Hall|].
      intros ev Hsv. apply setup_event_stage_not_sidebar. by left. }
    assert (∀ l, Forall stage_event l →
                 Forall (λ ev, is_sidebar ev = false) l) as Hstage.
    { intros l Hl. eapply Forall_impl; [exact Hl|].
      intros ev Hsv. apply setup_event_stage_not_sidebar. by right. }
    destruct (fst (script lib inp w)).
    + destruct Htail as (mid & -> & Hmid).
      exists ([ tempfile_open (tmp_path lib w);
                tempfile_write (tmp_path lib w) (getvalue f);
                tempfile_close (tmp_path lib w) ] ++ sevs ++ mid ++ sidebar_events).
      split; [exact Hev|].
      exists ([ tempfile_open (tmp_path lib w);
                tempfile_write (tmp_path lib w) (getvalue f);
                tempfile_close (tmp_path lib w) ] ++ sevs ++ mid).
      split; [by rewrite <- !app_assoc|].
      repeat (apply Forall_app; split); auto; by repeat constructor.
    + exists ([ tempfile_open (tmp_path lib w);
                tempfile_write (tmp_path lib w) (getvalue f);
                tempfile_close (tmp_path lib w) ] ++ sevs ++ tail).
      split; [exact Hev|].
      repeat (apply Forall_app; split); auto; by repeat constructor.
  - rewrite (script_no_upload _ _ _ Hup). cbn [fst].
    exists ([st_info "Please upload a PDF file to begin."] ++ sidebar_events).
    split.
    + apply events_of_app. by rewrite (script_no_upload _ _ _ Hup).
    + exists [st_info "Please upload a PDF file to begin."].
      split; [done|]. by repeat constructor.
Qed.

Lemma title_first_sidebar_last_witness :
  ∃ rest,
    events_of (script lib_query_down inp_click) initial =
      [ st_markdown title_html true;
        st_file_uploader "Choose a PDF file" "pdf" ] ++ rest ∧
    Forall (λ ev, is_sidebar ev = false) rest.
Proof.
  exact (title_first_sidebar_last lib_query_down inp_click initial).
Defined.

(** ** The answer on the page *)



(** ** The cache across runs *)

(** X6: the cache is keyed by the path alone.  When it already holds an
    engine under the temporary path of a run, the setup returns that
    engine whatever bytes were uploaded, without running its body: the
    run makes no loading, splitting or indexing call, leaves [Settings]
    and the cache as they were, and, when the button was clicked, puts
    the question to the cached engine. *)
Theorem cache_hit_skips_setup lib inp f w eng :
  uploaded_file inp = Some f →
  cache w !! tmp_path lib w = Some eng →
  load_and_process_data lib (OPENAI_API_KEY inp) (tmp_path lib w)
                        (after_write lib f w)
    = (Ok eng, after_write lib f w) ∧
  settings (snd (script lib inp w)) = settings w ∧
  cache (snd (script lib inp w)) = cache w ∧
  (∀ c, called c ∈ events_of (script lib inp) w →
        is_select (called c) = true ∨ is_engine_query (called c) = true) ∧
  (button_clicked inp = true →
   called (select_call eng (user_query_of inp))
     ∈ events_of (script lib inp) w).
Proof.
  intros Hup Hhit.
  assert (load_and_process_data lib (OPENAI_API_KEY inp) (tmp_path lib w)
            (after_write lib f w) = (Ok eng, after_write lib f w)) as Hsetup.
  { apply setup_hit. by rewrite after_write_spec. }
  pose proof (upload_run_state lib inp f w Hup) as [Hc Hse].
  cbv zeta in Hc, Hse. rewrite Hsetup in Hc, Hse. cbn [snd] in Hc, Hse.
  rewrite after_write_spec in Hc, Hse. cbn [cache settings] in Hc, Hse.
  split; [done|]. split; [done|]. split; [done|].
  destruct (upload_run_shape lib inp f w Hup) as (tail & Hev & Htail).
  assert (events_of (load_and_process_data lib (OPENAI_API_KEY inp)
                       (tmp_path lib w)) (after_write lib f w) = []) as Hnone.
  { apply events_of_app. rewrite Hsetup. cbn [snd]. by rewrite app_nil_r. }
  rewrite Hnone in Hev. cbn [app] in Hev.
  split.
  - intros c Hin. rewrite Hev in Hin.
    assert (stage_event (called c)) as Hst.
    { apply elem_of_app in Hin as [Hin|Hin].
      { unfold header_events in Hin. set_solver. }
      destruct (fst (script lib inp w)).
      - destruct Htail as (mid & -> & Hmid).
        apply elem_of_app in Hin as [Hin|Hin].
        + rewrite Forall_forall in Hmid. by apply Hmid.
        + unfold sidebar_events in Hin. set_solver.
      - rewrite Forall_forall in Htail. by apply Htail. }
    destruct c; try done; [by left|by right].
  - intros Hclick.
    pose proof (script_upload_spec lib inp f w Hup) as Hs.
    pose proof (setup_keeps_file lib inp f w) as Hfile.
    rewrite Hsetup in Hs, Hfile. cbn [snd] in Hfile.
    destruct (answer_and_cleanup_spec lib inp (tmp_path lib w) eng _ _ Hfile)
      as (r & w3 & Heq & Ha).
    rewrite Heq in Hs. rewrite Hclick in Ha.
    assert (∃ l1 l2, trace w3 = trace (after_write lib f w) ++ l1
                       ++ called (select_call eng (user_query_of inp)) :: l2)
      as (l1 & l2 & Ht3).
    { exists (ui_events ++ [st_spinner_enter "Processing your query..."]).
      destruct (lib_select _ _ _ _ _) as [i|e];
        [destruct (_ !! i) as [tool|];
          [destruct (lib_query _ _ _ _) as [resp|e]|]|];
        destruct Ha as (_ & _ & ->); eexists;
        rewrite <- !app_assoc; reflexivity. }
    assert (∃ l3, trace (snd (script lib inp w)) = trace w3 ++ l3)
      as (l3 & Hfin).
    { destruct r as [[]|e]; rewrite Hs; cbn [snd trace].
      - by eexists.
      - exists []. by rewrite app_nil_r. }
    erewrite events_of_app;
      [|rewrite Hfin, Ht3, after_write_spec; cbn [trace];
        rewrite <- !app_assoc; reflexivity].
    rewrite !elem_of_app, elem_of_cons. right. right. left. by left.
Qed.

Lemma cache_hit_skips_setup_witness :
  let w := reruns lib_ok [inp_click] initial in
  load_and_process_data lib_ok (Some "sk-test"%string) (tmp_path lib_ok w)
                        (after_write lib_ok sample_upload w)
    = (Ok (router_of sample_nodes), after_write lib_ok sample_upload w) ∧
  settings (snd (script lib_ok inp_click w)) = settings w ∧
  cache (snd (script lib_ok inp_click w)) = cache w ∧
  (∀ c, called c ∈ events_of (script lib_ok inp_click) w →
        is_select (called c) = true ∨ is_engine_query (called c) = true) ∧
  (button_clicked inp_click = true →
   called (select_call (router_of sample_nodes) (user_query_of inp_click))
     ∈ events_of (script lib_ok inp_click) w).
Proof.
  cbv zeta.
  apply (cache_hit_skips_setup lib_ok inp_click sample_upload
           (reruns lib_ok [inp_click] initial) (router_of sample_nodes));
    vm_compute; reflexivity.
Defined.

(** X7: after a run with an upload that completes, the cache holds an
    engine under the run's temporary path although the file of that path
    has been deleted. *)
Theorem completed_run_leaves_cache_entry lib inp f w :
  uploaded_file inp = Some f →
  fst (script lib inp w) = Ok tt →
  ∃ eng,
    cache (snd (script lib inp w)) !! tmp_path lib w = Some eng ∧
    fs (snd (script lib inp w)) !! tmp_path lib w = None.
Proof.
  intros Hup Hok.
  pose proof (upload_run_state lib inp f w Hup) as [Hc _]. cbv zeta in Hc.
  pose proof (upload_run_disk lib inp f w Hup) as Hdisk. rewrite Hok in Hdisk.
  pose proof (script_upload_spec lib inp f w Hup) as Hs.
  destruct (load_and_process_data _ _ _ _) as [[eng|e] w2] eqn:Hsetup;
    [|rewrite Hs in Hok; discriminate].
  exists eng. rewrite Hc, Hdisk. cbn [snd]. split.
  - by eapply setup_stores.
  - apply lookup_delete_eq.
Qed.

Lemma completed_run_leaves_cache_entry_witness :
  ∃ eng,
    cache (snd (script lib_ok inp_click initial)) !! tmp_path lib_ok initial
      = Some eng ∧
    fs (snd (script lib_ok inp_click initial)) !! tmp_path lib_ok initial = None.
Proof.
  apply (completed_run_leaves_cache_entry lib_ok inp_click sample_upload initial);
    reflexivity.
Defined.

(** X8: over any number of reruns, a file whose name the temporary-name
    generator never picks is left as it was: the script only ever writes
    and removes its own temporary files. *)
Theorem reruns_touch_only_temp_files lib inps w p :
  (∀ w', p ≠ tmp_path lib w') →
  fs (reruns lib inps w) !! p = fs w !! p.
Proof.
  intros Hp. revert w. induction inps as [|inp inps IH]; intros w; [done|].
  cbn [reruns foldl]. fold (reruns lib inps (snd (script lib inp w))).
  rewrite IH. by apply script_disk_frame.
Qed.

Lemma reruns_touch_only_temp_files_witness :
  fs (reruns lib_query_down [inp_click; inp_no_file; inp_no_click] w_one_file)
     !! "/tmp/a.pdf"
    = fs w_one_file !! "/tmp/a.pdf".
Proof.
  apply (reruns_touch_only_temp_files lib_query_down
           [inp_click; inp_no_file; inp_no_click] w_one_file "/tmp/a.pdf").
  intros w'. vm_compute. discriminate.
Defined.

(** ** [Settings] and the indices *)

Lemma call_returns {A} c (oracle : World → result A) w a :
  oracle w = Ok a → call c oracle w = (Ok a, log (called c) w).
Proof. unfold call. by intros ->. Qed.

Lemma call_raises {A} c (oracle : World → result A) w e :
  oracle w = Raise e →
  call c oracle w = (Raise e, log (raised e) (log (called c) w)).
Proof. unfold call, raise. by intros ->. Qed.

(** X9: the setup routine assigns [Settings.llm] and
    [Settings.embedding] before it builds any index.  Whenever an index
    construction was attempted, whether or not it or a later step then
    raised, [Settings] hold the two configured models with the run's API
    key; and when the documents cannot be loaded the routine raises that
    exception after the one loading call and leaves [Settings] as they
    were. *)
Theorem settings_assigned_before_indices lib key file_path w :
  let m := load_and_process_data_body lib key file_path in
  (∀ nodes,
     called (SummaryIndex_init nodes) ∈ events_of m w ∨
     called (VectorStoreIndex_init nodes) ∈ events_of m w →
     settings (snd (m w)) = body_settings key) ∧
  (∀ e,
     lib_load_data lib w [file_path] = Raise e →
     fst (m w) = Raise e ∧
     settings (snd (m w)) = settings w ∧
     events_of m w =
       [called (SimpleDirectoryReader_load_data [file_path]); raised e]).
Proof.
  cbv zeta.
  assert (∀ e, lib_load_data lib w [file_path] = Raise e →
               load_and_process_data_body lib key file_path w =
                 (Raise e,
                  log (raised e)
                    (log (called (SimpleDirectoryReader_load_data [file_path])) w)))
    as Hload.
  { intros e He. unfold load_and_process_data_body.
    apply bind_raises. by apply call_raises. }
  split.
  - intros nodes Hin.
    destruct (lib_load_data lib w [file_path]) as [documents|e] eqn:H1.
    + destruct (lib_get_nodes lib
                  (log (called (SimpleDirectoryReader_load_data [file_path])) w)
                  {| chunk_size := 1024 |} documents) as [nodes'|e] eqn:H2.
      * unfold load_and_process_data_body.
        erewrite bind_returns by (by apply call_returns).
        erewrite bind_returns by (by apply call_returns).
        erewrite bind_returns by reflexivity.
        erewrite bind_returns by reflexivity.
        match goal with
        | |- settings (snd (?rest ?w4)) = _ =>
            transitivity (settings w4);
              [|autorewrite with world; reflexivity];
              assert (preserves (λ w', settings w' = settings w4) rest) as Hp;
              [|exact (Hp w4 eq_refl)]
        end.
        repeat first
          [ apply inv_bind; [|intros ?]
          | apply inv_call; intros; by rewrite settings_log
          | apply inv_ret ].
      * exfalso.
        assert (events_of (load_and_process_data_body lib key file_path) w =
                  [ called (SimpleDirectoryReader_load_data [file_path]);
                    called (get_nodes_from_documents {| chunk_size := 1024 |}
                              documents);
                    raised e ]) as Hev.
        { apply events_of_app. unfold load_and_process_data_body.
          erewrite bind_returns by (by apply call_returns).
          erewrite bind_raises by (by apply call_raises).
          cbn [snd]. by rewrite !trace_log, <- !app_assoc. }
        rewrite Hev in Hin. set_solver.
    + exfalso.
      assert (events_of (load_and_process_data_body lib key file_path) w =
                [called (SimpleDirectoryReader_load_data [file_path]); raised e])
        as Hev.
      { apply events_of_app. rewrite (Hload e eq_refl). cbn [snd].
        by rewrite !trace_log, <- !app_assoc. }
      rewrite Hev in Hin. set_solver.
  - intros e He. rewrite (Hload e He). cbn [fst snd].
    split; [done|]. split; [by rewrite !settings_log|].
    apply events_of_app. rewrite (Hload e He). cbn [snd].
    by rewrite !trace_log, <- !app_assoc.
Qed.

Lemma settings_assigned_before_indices_witness :
  fst (load_and_process_data_body lib_index_down (Some "sk-test"%string)
         "/tmp/a.pdf" w_one_file)
    = Raise (LibraryError "APIConnectionError") ∧
  settings (snd (load_and_process_data_body lib_index_down
                   (Some "sk-test"%string) "/tmp/a.pdf" w_one_file))
    = body_settings (Some "sk-test"%string).
Proof.
  split; [reflexivity|].
  apply (proj1 (settings_assigned_before_indices lib_index_down
                  (Some "sk-test"%string) "/tmp/a.pdf" w_one_file)
               sample_nodes).
  right. vm_compute. apply list_elem_of_lookup. by exists 5%nat.
Defined.

(** ** From the upload to the router *)

(** X10: on a run with an upload whose temporary path is not in the
    cache, the router the setup returns is built from that upload: the
    documents are read from the temporary file while it holds exactly the
    uploaded bytes, the nodes are the ones the 1024-splitter made of
    those documents, both tools of the router are over those nodes, and
    the router is stored in the cache under the temporary path. *)
Theorem cache_miss_builds_from_upload lib inp f w eng w2 :
  uploaded_file inp = Some f →
  cache w !! tmp_path lib w = None →
  load_and_process_data lib (OPENAI_API_KEY inp) (tmp_path lib w)
                        (after_write lib f w) = (Ok eng, w2) →
  ∃ documents nodes,
    fs (after_write lib f w) !! tmp_path lib w = Some (getvalue f) ∧
    lib_load_data lib (after_write lib f w) [tmp_path lib w] = Ok documents ∧
    lib_get_nodes lib
      (log (called (SimpleDirectoryReader_load_data [tmp_path lib w]))
           (after_write lib f w))
      {| chunk_size := 1024 |} documents = Ok nodes ∧
    eng = router_of nodes ∧
    cache w2 = <[tmp_path lib w := eng]> (cache w).
Proof.
  intros Hup Hmiss Hsetup.
  unfold load_and_process_data, st_cache_resource in Hsetup.
  assert (cache (after_write lib f w) = cache w) as Hc
    by (by rewrite after_write_spec).
  rewrite Hc, Hmiss in Hsetup.
  destruct (load_and_process_data_body _ _ _ _) as [[v|e] w'] eqn:Hbody;
    [|discriminate].
  injection Hsetup as -> <-.
  destruct (body_returns _ _ _ _ _ _ Hbody)
    as (documents & nodes & Hload & Hnodes & -> & ->).
  exists documents, nodes.
  split; [rewrite after_write_spec; apply lookup_insert_eq|].
  split; [done|]. split; [done|]. split; [done|].
  rewrite cache_set_cache. cbn [cache]. by rewrite Hc.
Qed.

Lemma cache_miss_builds_from_upload_witness :
  ∃ documents nodes,
    fs (after_write lib_ok sample_upload initial) !! tmp_path lib_ok initial
      = Some pdf_bytes ∧
    lib_load_data lib_ok (after_write lib_ok sample_upload initial)
                  [tmp_path lib_ok initial] = Ok documents ∧
    lib_get_nodes lib_ok
      (log (called (SimpleDirectoryReader_load_data [tmp_path lib_ok initial]))
           (after_write lib_ok sample_upload initial))
      {| chunk_size := 1024 |} documents = Ok nodes ∧
    router_of sample_nodes = router_of nodes ∧
    cache (snd (load_and_process_data lib_ok (Some "sk-test"%string)
                  (tmp_path lib_ok initial)
                  (after_write lib_ok sample_upload initial)))
      = <[tmp_path lib_ok initial := router_of sample_nodes]> (cache initial).
Proof.
  apply (cache_miss_builds_from_upload lib_ok inp_click sample_upload initial
           (router_of sample_nodes)
           (snd (load_and_process_data lib_ok (Some "sk-test"%string)
                   (tmp_path lib_ok initial)
                   (after_write lib_ok sample_upload initial))));
    vm_compute; reflexivity.
Defined.

(** X11: whatever runs came before, every engine in the cache is a
    router built by the setup routine: an LLM single selector over
    exactly two tools, the summary tool and the vector tool over the same
    nodes, in that order. *)
Theorem cached_engines_are_routers lib inps arg eng :
  cache (reruns lib inps initial) !! arg = Some eng →
  ∃ nodes,
    selector eng = LLMSingleSelector_from_defaults ∧
    query_engine_tools eng = [summary_tool_of nodes; vector_tool_of nodes] ∧
    verbose eng = true.
Proof.
  intros H. destruct (cache_ok_reruns lib inps arg eng H) as [nodes ->].
  by exists nodes.
Qed.

Lemma cached_engines_are_routers_witness :
  ∃ nodes,
    selector (router_of sample_nodes) = LLMSingleSelector_from_defaults ∧
    query_engine_tools (router_of sample_nodes)
      = [summary_tool_of nodes; vector_tool_of nodes] ∧
    verbose (router_of sample_nodes) = true.
Proof.
  apply (cached_engines_are_routers lib_ok [inp_click; inp_no_click]
           (tmp_path lib_ok initial) (router_of sample_nodes)).
  vm_compute. reflexivity.
Defined.
